(** * Shipyard controller API gateway (controller/api/api.go)

    A shallow embedding of the gateway layer of [api.go]: the swarm route
    table and its registration loop, the CORS wrapper, the TLS-aware
    forwarder set up by [Api.Run], the top-level [http.ServeMux] mounts, and
    the exec bridge ([Api.execContainer], [Api.hijack]).

    Library code the file calls (net/http, gorilla/mux, oxy/forward,
    encoding/json, net, crypto/tls) is modelled only as far as the calls in
    [api.go] need; results that depend on the outside world are read from an
    environment record [Env]. *)

From Stdlib Require Import String Ascii List Bool Arith ZArith Lia Permutation.
Import ListNotations.
Open Scope string_scope.

(* ------------------------------------------------------------------ *)
(** ** Strings: the [strings] package calls used by the source *)

Module Strings.

(** [strings.HasPrefix(s, prefix)]. *)
Definition HasPrefix (s pre : string) : bool := String.prefix pre s.

(** [strip p s]: the rest of [s] after its prefix [p], when [p] is one. *)
Fixpoint strip (p s : string) : option string :=
  match p with
  | EmptyString => Some s
  | String c p' =>
      match s with
      | EmptyString => None
      | String d s' => if Ascii.eqb c d then strip p' s' else None
      end
  end.

(** Last byte of a string, [s[len(s)-1]]. *)
Fixpoint last_byte (s : string) : option ascii :=
  match s with
  | EmptyString => None
  | String c EmptyString => Some c
  | String _ s' => last_byte s'
  end.

(** [s[0:len(s)-1]]. *)
Fixpoint drop_last (s : string) : string :=
  match s with
  | EmptyString => EmptyString
  | String _ EmptyString => EmptyString
  | String c s' => String c (drop_last s')
  end.

Fixpoint forall_bytes (f : ascii -> bool) (s : string) : bool :=
  match s with
  | EmptyString => true
  | String c s' => f c && forall_bytes f s'
  end.

(** No byte of [s] is a slash. *)
Definition no_slash (s : string) : bool :=
  forall_bytes (fun c => negb (Ascii.eqb c "/"%char)) s.

(** [strings.Split(s, sep)] for a one-byte separator [sep], the only use in
    the source ([strings.Split(command, ",")]).  As in Go, the result has
    one more piece than [s] has separators, so splitting the empty string gives one empty piece. *)
Fixpoint Split (s : string) (sep : ascii) : list string :=
  match s with
  | EmptyString => [EmptyString]
  | String c s' =>
      if Ascii.eqb c sep then EmptyString :: Split s' sep
      else match Split s' sep with
           | [] => [String c EmptyString]
           | piece :: rest => String c piece :: rest
           end
  end.

(** [strings.Join(a, sep)]. *)
Definition Join (a : list string) (sep : string) : string := String.concat sep a.

End Strings.

(* ------------------------------------------------------------------ *)
(** ** net/http: headers, response writer, requests *)

Module Http.

Definition Header := list (string * string).

(** [h.Add(key, value)] appends a value for [key]. *)
Definition Header_Add (h : Header) (key value : string) : Header :=
  (h ++ [(key, value)])%list.

(** [h.Set(key, value)] replaces the values of [key]. *)
Definition Header_Set (h : Header) (key value : string) : Header :=
  (filter (fun kv => negb (String.eqb (fst kv) key)) h ++ [(key, value)])%list.

(** [h[key]]: all values of [key], in order. *)
Definition Header_Values (h : Header) (key : string) : list string :=
  map snd (filter (fun kv => String.eqb (fst kv) key) h).

Record URL := mkURL { Scheme : string; Host : string; Path : string }.

Record Request := mkRequest {
  Method : string;
  ReqURL : URL;
  RequestURI : string
}.

(** What a handler has written so far to its [http.ResponseWriter]. *)
Record ResponseWriter := mkRW {
  header : Header;
  status : option nat;      (* [WriteHeader] code, if called *)
  body : string
}.

Definition emptyRW : ResponseWriter := mkRW [] None EmptyString.

Definition StatusInternalServerError : nat := 500.
Definition StatusBadGateway : nat := 502.
Definition StatusGatewayTimeout : nat := 504.

(** [http.StatusText], for the codes the forwarder's error handler uses. *)
Definition StatusText (code : nat) : string :=
  if (code =? 500)%nat then "Internal Server Error"
  else if (code =? 502)%nat then "Bad Gateway"
  else if (code =? 504)%nat then "Gateway Timeout"
  else EmptyString.

Definition WriteHeader (code : nat) (w : ResponseWriter) : ResponseWriter :=
  match status w with
  | Some _ => w                       (* superfluous WriteHeader is ignored *)
  | None => mkRW (header w) (Some code) (body w)
  end.

Definition Write (data : string) (w : ResponseWriter) : ResponseWriter :=
  let w' := WriteHeader 200 w in
  mkRW (header w') (status w') (body w' ++ data).

(** [http.Error(w, error, code)]. *)
Definition Error (w : ResponseWriter) (error : string) (code : nat) : ResponseWriter :=
  let w1 := mkRW (Header_Set (header w) "Content-Type" "text/plain; charset=utf-8")
                 (status w) (body w) in
  Write (error ++ String (ascii_of_nat 10) EmptyString) (WriteHeader code w1).

End Http.

(* ------------------------------------------------------------------ *)
(** ** gorilla/mux: path templates and route matching *)

Module Mux.

(** The variable patterns the routes of [api.go] use. *)
Inductive VarRe :=
| ReAnyStar        (* [.*] *)
| ReDigitDotPlus   (* [[0-9.]+] *)
| ReNoSlashPlus.   (* [[^/]+], the default when a variable has no pattern *)

Inductive Seg :=
| Lit (raw : string)
| Var (name : string) (re : VarRe).

Definition is_digit (c : ascii) : bool :=
  let n := nat_of_ascii c in ((48 <=? n) && (n <=? 57))%nat.

Definition cls (re : VarRe) (c : ascii) : bool :=
  match re with
  | ReAnyStar => negb (Ascii.eqb c (ascii_of_nat 10))    (* [.] excludes newline *)
  | ReDigitDotPlus => is_digit c || Ascii.eqb c "."%char
  | ReNoSlashPlus => negb (Ascii.eqb c "/"%char)
  end.

Definition min_len (re : VarRe) : nat :=
  match re with ReAnyStar => 0 | _ => 1 end.

Definition pattern_of (patt : string) : option VarRe :=
  if String.eqb patt ".*" then Some ReAnyStar
  else if String.eqb patt "[0-9.]+" then Some ReDigitDotPlus
  else None.

(** Split [name:pattern] at the first colon ([strings.SplitN(.., ":", 2)]). *)
Fixpoint split_colon (s : string) : string * option string :=
  match s with
  | EmptyString => (EmptyString, None)
  | String c s' =>
      if Ascii.eqb c ":"%char then (EmptyString, Some s')
      else let (n, p) := split_colon s' in (String c n, p)
  end.

Definition var_of (inner : string) : option Seg :=
  let (name, patt) := split_colon inner in
  if String.eqb name EmptyString then None
  else match patt with
       | None => Some (Var name ReNoSlashPlus)
       | Some p => option_map (Var name) (pattern_of p)
       end.

(** [newRouteRegexp]: cut the template at its braces.  [raw] is the literal
    text since the last variable, [inner] the text inside an open brace. *)
Fixpoint parse_tpl (tpl raw : string) (inner : option string) : option (list Seg) :=
  match tpl with
  | EmptyString =>
      match inner with
      | None => Some [Lit raw]
      | Some _ => None                       (* unbalanced braces *)
      end
  | String c tpl' =>
      match inner with
      | None =>
          if Ascii.eqb c "{"%char then parse_tpl tpl' raw (Some EmptyString)
          else if Ascii.eqb c "}"%char then None
          else parse_tpl tpl' (raw ++ String c EmptyString) None
      | Some acc =>
          if Ascii.eqb c "}"%char then
            match var_of acc, parse_tpl tpl' EmptyString None with
            | Some v, Some rest => Some (Lit raw :: v :: rest)
            | _, _ => None
            end
          else if Ascii.eqb c "{"%char then None   (* nested braces: not used *)
          else parse_tpl tpl' raw (Some (acc ++ String c EmptyString))
      end
  end.

Definition newRouteRegexp (tpl : string) : option (list Seg) :=
  parse_tpl tpl EmptyString None.

(** [var_match f n k s]: [s] splits as [a ++ b] with every byte of [a] in
    [f], at least [n] of them, and [k b]. *)
Fixpoint var_match (f : ascii -> bool) (n : nat) (k : string -> bool) (s : string) : bool :=
  (match n with 0 => k s | S _ => false end)
  || match s with
     | EmptyString => false
     | String c s' => f c && var_match f (Nat.pred n) k s'
     end.

(** The compiled regexp [^raw0(p1)raw1...(pn)rawn$] against a path. *)
Fixpoint match_segs (segs : list Seg) (s : string) : bool :=
  match segs with
  | [] => String.eqb s EmptyString
  | Lit raw :: rest =>
      match Strings.strip raw s with
      | Some s' => match_segs rest s'
      | None => false
      end
  | Var _ re :: rest => var_match (cls re) (min_len re) (match_segs rest) s
  end.

(** A version string, as [[0-9.]+] accepts it: one or more digits and dots. *)
Definition is_version (ver : string) : bool :=
  Strings.forall_bytes (cls ReDigitDotPlus) ver && negb (String.eqb ver EmptyString).

Section Router.
Variable Handler : Type.

(** A route: [regexp = None] is a route whose construction failed
    ([r.err != nil]); such a route never matches. *)
Record Route := mkRoute {
  regexp : option (list Seg);
  methods : list string;
  handler : Handler
}.

(** [router.Path(tpl)]: a path template must start with a slash. *)
Definition Path (tpl : string) : option (list Seg) :=
  match tpl with
  | String "/" _ => newRouteRegexp tpl
  | _ => None
  end.

Definition Route_Match (r : Route) (method path : string) : bool :=
  match regexp r with
  | None => false
  | Some segs =>
      match_segs segs path && existsb (String.eqb method) (methods r)
  end.

Definition Router := list Route.

(** [Router.Match]: the first route that matches wins. *)
Definition Router_Match (rt : Router) (method path : string) : option Handler :=
  option_map handler (find (fun r => Route_Match r method path) rt).

End Router.

Arguments mkRoute {Handler}.
Arguments regexp {Handler}.
Arguments methods {Handler}.
Arguments handler {Handler}.
Arguments Route_Match {Handler}.
Arguments Router_Match {Handler}.

End Mux.

(* ------------------------------------------------------------------ *)
(** ** net/http: [ServeMux] *)

Module ServeMux.

Section Mux.
Variable Handler : Type.
Variable RedirectHandler : string -> nat -> Handler.
Variable NotFoundHandler : Handler.
(** [cleanPath] of net/http (path.Clean, keeping a trailing slash). *)
Variable cleanPath : string -> string.

Record muxEntry := mkEntry {
  explicit : bool;
  h : Handler;
  pattern : string
}.

(** The map [mux.m], as the list of its entries (keys are unique). *)
Definition ServeMux := list (string * muxEntry).

Definition lookup (m : ServeMux) (k : string) : option muxEntry :=
  option_map snd (find (fun kv => String.eqb (fst kv) k) m).

Definition store (m : ServeMux) (k : string) (v : muxEntry) : ServeMux :=
  (filter (fun kv => negb (String.eqb (fst kv) k)) m ++ [(k, v)])%list.

Definition is_explicit (m : ServeMux) (k : string) : bool :=
  match lookup m k with
  | Some e => explicit e
  | None => false
  end.

Definition ends_with_slash (s : string) : bool :=
  match Strings.last_byte s with
  | Some c => Ascii.eqb c "/"%char
  | None => false
  end.

(** [mux.Handle(pattern, handler)]; [None] is a panic (empty pattern or a
    second registration).  A pattern ending in a slash also installs an
    implicit redirect for the pattern without it. *)
Definition Handle (m : ServeMux) (pat : string) (handler : Handler) : option ServeMux :=
  if String.eqb pat EmptyString then None
  else if is_explicit m pat then None
  else
    let m1 := store m pat (mkEntry true handler pat) in
    if ends_with_slash pat && negb (is_explicit m1 (Strings.drop_last pat))
    then Some (store m1 (Strings.drop_last pat)
                     (mkEntry false (RedirectHandler pat 301) pat))
    else Some m1.

(** [pathMatch(pattern, path)]. *)
Definition pathMatch (pat path : string) : bool :=
  match Strings.last_byte pat with
  | None => false
  | Some c =>
      if Ascii.eqb c "/"%char then String.prefix pat path
      else String.eqb pat path
  end.

(** One iteration of the loop of [mux.match]: keep the longest match. *)
Definition match_step (path : string) (acc : option (nat * Handler))
           (kv : string * muxEntry) : option (nat * Handler) :=
  if pathMatch (fst kv) path then
    match acc with
    | None => Some (String.length (fst kv), h (snd kv))
    | Some (n, _) =>
        if (n <? String.length (fst kv))%nat
        then Some (String.length (fst kv), h (snd kv))
        else acc
    end
  else acc.

Definition match_ (m : ServeMux) (path : string) : option Handler :=
  option_map snd (fold_left (match_step path) m None).

(** [mux.handler(host, path)]; every pattern of [api.go] starts with a
    slash, so there are no host-specific patterns. *)
Definition handler (m : ServeMux) (path : string) : Handler :=
  match match_ m path with
  | Some hd => hd
  | None => NotFoundHandler
  end.

(** [mux.Handler(r)] for a method other than CONNECT. *)
Definition Handler_of (m : ServeMux) (path : string) : Handler :=
  if String.eqb (cleanPath path) path then handler m path
  else RedirectHandler (cleanPath path) 301.

End Mux.

Arguments mkEntry {Handler}.
Arguments explicit {Handler}.
Arguments h {Handler}.
Arguments pattern {Handler}.
Arguments Handle {Handler}.
Arguments pathMatch : clear implicits.
Arguments match_step {Handler}.
Arguments match_ {Handler}.
Arguments handler {Handler}.
Arguments Handler_of {Handler}.

End ServeMux.

(* ------------------------------------------------------------------ *)
(** ** crypto/tls and oxy/forward *)

Module Tls.
(** [tls.Config]: an opaque configuration, told apart by its fields. *)
Record Config := mkConfig { ServerName : string; InsecureSkipVerify : bool }.
End Tls.

Module Forward.

(** [http.RoundTripper] values the source builds. *)
Inductive RoundTripper :=
| DefaultTransport
| Transport (TLSClientConfig : Tls.Config).   (* [&http.Transport{TLSClientConfig: c}] *)

Record Forwarder := mkForwarder { roundTripper : option RoundTripper }.

Definition optSetter := Forwarder -> Forwarder.

(** [forward.RoundTripper(r)]. *)
Definition RoundTripper_opt (r : RoundTripper) : optSetter :=
  fun _ => mkForwarder (Some r).

(** [forward.New(setters...)]: apply the setters, then default the
    round-tripper.  None of the setters used can fail. *)
Definition New (setters : list optSetter) : Forwarder :=
  let f := fold_left (fun f s => s f) setters (mkForwarder None) in
  match roundTripper f with
  | None => mkForwarder (Some DefaultTransport)
  | Some _ => f
  end.

Definition transport_of (f : Forwarder) : RoundTripper :=
  match roundTripper f with
  | Some r => r
  | None => DefaultTransport
  end.

(** The request the forwarder sends upstream ([copyRequest]): scheme and
    host of [req.URL], and the inbound request line as the opaque part. *)
Record OutReq := mkOutReq {
  outMethod : string;
  outScheme : string;
  outHost : string;
  outOpaque : string
}.

Definition copyRequest (req : Http.Request) : OutReq :=
  mkOutReq (Http.Method req) (Http.Scheme (Http.ReqURL req))
           (Http.Host (Http.ReqURL req)) (Http.RequestURI req).

Record Response := mkResponse {
  respStatus : nat;
  respHeader : Http.Header;
  respBody : string
}.

End Forward.

(* ------------------------------------------------------------------ *)
(** ** encoding/json and the dockerclient types the source uses *)

Module Json.

#[local] Set Warnings "-register-all".

Inductive Value :=
| JNull
| JBool (b : bool)
| JString (s : string)
| JArray (items : list Value)
| JObject (fields : list (string * Value)).

End Json.

Module Dockerclient.

(** [dockerclient.ExecConfig]; the type is declared in the dockerclient
    package, these are the fields [api.go] sets.  [Cmd = None] is a nil
    slice. *)
Record ExecConfig := mkExecConfig {
  AttachStdin : bool;
  AttachStdout : bool;
  AttachStderr : bool;
  Tty : bool;
  Cmd : option (list string);
  Detach : bool
}.

(** [json.Marshal(execConfig)]: a struct of booleans and a string slice, in
    field order; it has no failing case. *)
Definition Marshal (c : ExecConfig) : string + Json.Value :=
  inr (Json.JObject
         [ ("AttachStdin", Json.JBool (AttachStdin c));
           ("AttachStdout", Json.JBool (AttachStdout c));
           ("AttachStderr", Json.JBool (AttachStderr c));
           ("Tty", Json.JBool (Tty c));
           ("Cmd", match Cmd c with
                   | None => Json.JNull
                   | Some l => Json.JArray (map Json.JString l)
                   end);
           ("Detach", Json.JBool (Detach c)) ]).

(** [dockerclient.ContainerInfo]: only [Id] is read. *)
Record ContainerInfo := mkContainerInfo { Id : string }.

Record DockerClient := mkDockerClient {
  URL : Http.URL;
  TLSConfig : option Tls.Config
}.

End Dockerclient.

(* ------------------------------------------------------------------ *)
(** ** The outside world *)

(** Result of [http.Post] followed by [ioutil.ReadAll(resp.Body)]. *)
Inductive PostResult :=
| PostErr (err : string)                          (* [http.Post] returned an error *)
| PostResp (statusCode : nat) (readAll : string + string).
                                                  (* a response; [inl]: reading its body failed *)

Record Env := mkEnv {
  (** [url.ParseRequestURI]; [inl] carries [err.Error()]. *)
  url_ParseRequestURI : string -> string + Http.URL;
  (** The round trip of the forwarder; [inl] is the status its error handler
      answers with when the round trip fails. *)
  RoundTrip : Forward.RoundTripper -> Forward.OutReq -> nat + Forward.Response;
  (** [http.Post(url, contentType, body)]. *)
  http_Post : string -> string -> option Json.Value -> PostResult;
  (** [json.Unmarshal(data, &info)]: the value left in [info], and the error. *)
  json_Unmarshal : string -> Dockerclient.ContainerInfo * option string;
  (** [http.NewRequest(method, url, body)]: its error, if any. *)
  http_NewRequest : string -> string -> option string;
  (** [net.Dial(network, addr)] and [tls.Dial(network, addr, config)]: the
      error, if any. *)
  net_Dial : string -> string -> option string;
  tls_Dial : string -> string -> Tls.Config -> option string
}.

(* ------------------------------------------------------------------ *)
(** ** package api: types, CORS, the forwarder and the route tables *)

Module Api.

(** [manager.Manager]: of the interface, the modelled code calls only
    [DockerClient()]. *)
Record Manager := mkManager { DockerClient : Dockerclient.DockerClient }.

Record Api := mkApi {
  listenAddr : string;
  manager : Manager;
  authWhitelistCIDRs : list string;
  enableCors : bool;
  serverVersion : string
}.

Definition NewApi (listenAddr : string) (manager : Manager)
           (authWhitelistCIDRs : list string) (enableCors : bool) : Api :=
  mkApi listenAddr manager authWhitelistCIDRs enableCors EmptyString.

(** What serving one request has done: the response written, and the
    requests relayed to the cluster manager with the round-tripper used. *)
Record ServeState := mkServe {
  rw : Http.ResponseWriter;
  relayed : list (Forward.RoundTripper * Forward.OutReq)
}.

(** A handler.  The receiver [a] is a pointer captured by the closures of
    [Run]: its fields are read when the request is served, so a handler takes
    the receiver as it is at that time. *)
Definition HandlerFunc := Api -> Http.Request -> ServeState -> ServeState.

Definition with_rw (f : Http.ResponseWriter -> Http.ResponseWriter) (st : ServeState) : ServeState :=
  mkServe (f (rw st)) (relayed st).

Definition add_header (key value : string) (w : Http.ResponseWriter) : Http.ResponseWriter :=
  Http.mkRW (Http.Header_Add (Http.header w) key value) (Http.status w) (Http.body w).

Definition writeCorsHeaders (r : Http.Request) (st : ServeState) : ServeState :=
  let st1 := with_rw (add_header "Access-Control-Allow-Origin" "*") st in
  let st2 := with_rw (add_header "Access-Control-Allow-Headers"
                                 "Origin, X-Requested-With, Content-Type, Accept") st1 in
  with_rw (add_header "Access-Control-Allow-Methods" "GET, POST, DELETE, PUT, OPTIONS") st2.

(** [fwd.ServeHTTP(w, req)] of oxy/forward: one round trip to the target in
    [req.URL], then the upstream response (or the error handler's status) is
    written to [w]. *)
Definition Forwarder_ServeHTTP (env : Env) (f : Forward.Forwarder)
           (req : Http.Request) (st : ServeState) : ServeState :=
  let outReq := Forward.copyRequest req in
  let rt := Forward.transport_of f in
  let w :=
    match RoundTrip env rt outReq with
    | inl code => Http.Write (Http.StatusText code) (Http.WriteHeader code (rw st))
    | inr resp =>
        let w1 := Http.mkRW (Http.header (rw st) ++ Forward.respHeader resp)%list
                            (Http.status (rw st)) (Http.body (rw st)) in
        Http.Write (Forward.respBody resp) (Http.WriteHeader (Forward.respStatus resp) w1)
    end in
  mkServe w (relayed st ++ [(rt, outReq)])%list.

(** *** [Run]: transport selection *)

(** The [scheme] variable of [Run]. *)
Definition Run_scheme (client : Dockerclient.DockerClient) : string :=
  match Dockerclient.TLSConfig client with
  | Some _ => "https://"
  | None => "http://"
  end.

(** The [fwd] variable of [Run]. *)
Definition Run_fwd (client : Dockerclient.DockerClient) : Forward.Forwarder :=
  let fwd := Forward.New [] in
  match Dockerclient.TLSConfig client with
  | Some cfg =>
      let r := Forward.RoundTripper_opt (Forward.Transport cfg) in
      Forward.New [r]
  | None => fwd
  end.

(** [dUrl := fmt.Sprintf("%s%s", scheme, u.Host)]. *)
Definition Run_dUrl (client : Dockerclient.DockerClient) : string :=
  Run_scheme client ++ Http.Host (Dockerclient.URL client).

(** The [swarmRedirect] closure over [dUrl] and [fwd]. *)
Definition swarmRedirect (env : Env) (dUrl : string) (fwd : Forward.Forwarder) : HandlerFunc :=
  fun _ req st =>
    match url_ParseRequestURI env dUrl with
    | inl err => with_rw (fun w => Http.Error w err Http.StatusInternalServerError) st
    | inr u =>
        let req' := Http.mkRequest (Http.Method req) u (Http.RequestURI req) in
        Forwarder_ServeHTTP env fwd req' st
    end.

(** *** [Run]: the swarm route table *)

(** The map literal [m], rows in source order. *)
Definition m (swarmRedirect : HandlerFunc) : list (string * list (string * HandlerFunc)) :=
  [ ("GET",
      [ ("/_ping", swarmRedirect);
        ("/events", swarmRedirect);
        ("/info", swarmRedirect);
        ("/version", swarmRedirect);
        ("/images/json", swarmRedirect);
        ("/images/viz", swarmRedirect);
        ("/images/search", swarmRedirect);
        ("/images/get", swarmRedirect);
        ("/images/{name:.*}/get", swarmRedirect);
        ("/images/{name:.*}/history", swarmRedirect);
        ("/images/{name:.*}/json", swarmRedirect);
        ("/containers/ps", swarmRedirect);
        ("/containers/json", swarmRedirect);
        ("/containers/{name:.*}/export", swarmRedirect);
        ("/containers/{name:.*}/changes", swarmRedirect);
        ("/containers/{name:.*}/json", swarmRedirect);
        ("/containers/{name:.*}/top", swarmRedirect);
        ("/containers/{name:.*}/logs", swarmRedirect);
        ("/containers/{name:.*}/stats", swarmRedirect);
        ("/containers/{name:.*}/attach/ws", swarmRedirect);
        ("/exec/{execid:.*}/json", swarmRedirect) ]);
    ("POST",
      [ ("/auth", swarmRedirect);
        ("/commit", swarmRedirect);
        ("/build", swarmRedirect);
        ("/images/create", swarmRedirect);
        ("/images/load", swarmRedirect);
        ("/images/{name:.*}/push", swarmRedirect);
        ("/images/{name:.*}/tag", swarmRedirect);
        ("/containers/create", swarmRedirect);
        ("/containers/{name:.*}/kill", swarmRedirect);
        ("/containers/{name:.*}/pause", swarmRedirect);
        ("/containers/{name:.*}/unpause", swarmRedirect);
        ("/containers/{name:.*}/rename", swarmRedirect);
        ("/containers/{name:.*}/restart", swarmRedirect);
        ("/containers/{name:.*}/start", swarmRedirect);
        ("/containers/{name:.*}/stop", swarmRedirect);
        ("/containers/{name:.*}/wait", swarmRedirect);
        ("/containers/{name:.*}/resize", swarmRedirect);
        ("/containers/{name:.*}/attach", swarmRedirect);
        ("/containers/{name:.*}/copy", swarmRedirect);
        ("/containers/{name:.*}/exec", swarmRedirect);
        ("/exec/{execid:.*}/start", swarmRedirect);
        ("/exec/{execid:.*}/resize", swarmRedirect) ]);
    ("DELETE",
      [ ("/containers/{name:.*}", swarmRedirect);
        ("/images/{name:.*}", swarmRedirect) ]);
    ("OPTIONS",
      [ (EmptyString, swarmRedirect) ]) ]%list.

(** The triples [(method, route, fct)] the two nested [range] loops visit, in
    table order.  Go visits a map in an unspecified order: the router is built
    below from any [order], and the theorems take a permutation of this list. *)
Definition range_m (tbl : list (string * list (string * HandlerFunc)))
  : list (string * string * HandlerFunc) :=
  flat_map (fun mr => map (fun rf => (fst mr, fst rf, snd rf)) (snd mr)) tbl.

(** The [wrap] closure of the loop body. *)
Definition wrap (localFct : HandlerFunc) : HandlerFunc :=
  fun a r st =>
    let st' := if enableCors a then writeCorsHeaders r st else st in
    localFct a r st'.

Definition version_prefix : string := "/v{version:[0-9.]+}".

(** One iteration of the loop body: the versioned route, then the bare one,
    both bound to the same [wrap]. *)
Definition add_routes (rt : Mux.Router HandlerFunc) (e : string * string * HandlerFunc)
  : Mux.Router HandlerFunc :=
  let '(method, route, fct) := e in
  let localRoute := route in
  let localFct := fct in
  let wrap := wrap localFct in
  let localMethod := method in
  (rt ++ [ Mux.mkRoute (Mux.Path (version_prefix ++ localRoute)) [localMethod] wrap;
           Mux.mkRoute (Mux.Path localRoute) [localMethod] wrap ])%list.

Definition swarmRouter (order : list (string * string * HandlerFunc)) : Mux.Router HandlerFunc :=
  fold_left add_routes order []%list.

(** The two routes one loop iteration registers. *)
Definition routes_of (e : string * string * HandlerFunc) : list (Mux.Route HandlerFunc) :=
  let '(method, route, fct) := e in
  [ Mux.mkRoute (Mux.Path (version_prefix ++ route)) [method] (wrap fct);
    Mux.mkRoute (Mux.Path route) [method] (wrap fct) ]%list.

(** *** [Run]: the top-level mux *)

Inductive TopHandler :=
| FileServer (dir : string)
| apiAuthRouter
| accountAuthRouter
| loginRouter
| hubRouter
| swarmAuthRouter
| RedirectHandler (url : string) (code : nat)
| NotFoundHandler.

Definition Handle' (m : option (ServeMux.ServeMux TopHandler)) (pat : string) (hd : TopHandler)
  : option (ServeMux.ServeMux TopHandler) :=
  match m with
  | Some mx => ServeMux.Handle RedirectHandler mx pat hd
  | None => None
  end.

(** The [globalMux.Handle] calls of [Run], in source order. *)
Definition globalMux : option (ServeMux.ServeMux TopHandler) :=
  let g := Some []%list in
  let g := Handle' g "/" (FileServer "static") in
  let g := Handle' g "/api/" apiAuthRouter in
  let g := Handle' g "/account/" accountAuthRouter in
  let g := Handle' g "/auth/" loginRouter in
  let g := Handle' g "/hub/" hubRouter in
  let g := Handle' g "/containers/" swarmAuthRouter in
  let g := Handle' g "/_ping" swarmAuthRouter in
  let g := Handle' g "/commit" swarmAuthRouter in
  let g := Handle' g "/build" swarmAuthRouter in
  let g := Handle' g "/events" swarmAuthRouter in
  let g := Handle' g "/version" swarmAuthRouter in
  let g := Handle' g "/images/" swarmAuthRouter in
  let g := Handle' g "/exec/" swarmAuthRouter in
  let g := Handle' g "/v1.17/" swarmAuthRouter in
  let g := Handle' g "/v1.18/" swarmAuthRouter in
  g.

(** The entries of [globalMux] after the registrations. *)
Definition globalMux_entries : ServeMux.ServeMux TopHandler :=
  Eval vm_compute in match globalMux with Some mx => mx | None => []%list end.

(** The handler the top-level mux picks for a request path ([None] only if a
    registration had panicked). *)
Definition globalMux_Handler (cleanPath : string -> string) (path : string) : option TopHandler :=
  option_map (fun mx => ServeMux.Handler_of RedirectHandler NotFoundHandler cleanPath mx path)
             globalMux.

(** What [Run] has built when it starts to listen.  [visit] is the order in
    which the runtime visits the rows of [m]. *)
Record Server := mkServer {
  dUrl : string;
  fwd : Forward.Forwarder;
  router : Mux.Router HandlerFunc;
  topMux : option (ServeMux.ServeMux TopHandler)
}.

Definition Run (env : Env) (a : Api)
           (visit : list (string * string * HandlerFunc) -> list (string * string * HandlerFunc))
  : Server :=
  let client := DockerClient (manager a) in
  let dUrl := Run_dUrl client in
  let fwd := Run_fwd client in
  let swarmRedirect := swarmRedirect env dUrl fwd in
  mkServer dUrl fwd (swarmRouter (visit (range_m (m swarmRedirect)))) globalMux.

End Api.

(* ------------------------------------------------------------------ *)
(** ** The exec bridge: [Api.hijack] and [Api.execContainer] *)

Module Bridge.

Import Api.

(** [url.Values] and [Values.Get]: the first value of a key, or the empty
    string. *)
Definition Values := list (string * list string).

Definition Values_Get (v : Values) (key : string) : string :=
  match find (fun kv => String.eqb (fst kv) key) v with
  | Some (_, x :: _) => x
  | _ => EmptyString
  end.

(** The websocket connection handed to [execContainer]; it serves as [in],
    [stdout] and [stderr] of the hijack. *)
Record WsConn := mkWs { wsQuery : Values }.

(** The connection a dial returns: [net.Dial("tcp", ..)] gives a
    [*net.TCPConn], [tls.Dial] a [*tls.Conn]. *)
Inductive NetConn :=
| TCPConn (raddr : string)
| TLSConn (raddr : string) (cfg : Tls.Config).

(** The type assertion of [dial] to a [*net.TCPConn]. *)
Definition is_TCPConn (c : NetConn) : bool :=
  match c with
  | TCPConn _ => true
  | TLSConn _ _ => false
  end.

(** The assertion [rwc.(interface{ CloseWrite() error })]: [*net.TCPConn]
    has the method. *)
Definition has_CloseWrite (c : NetConn) : bool := is_TCPConn c.

(** [time.Second], in nanoseconds. *)
Definition Second : Z := 1000000000%Z.

Record HijackRequest := mkHijackReq {
  hrMethod : string;
  hrPath : string;
  hrHost : string;
  hrHeader : Http.Header;
  hrBody : Json.Value
}.

(** What the bridge does to the outside world, in order. *)
Inductive Event :=
| EvPost (url contentType : string) (body : option Json.Value)   (* [http.Post] *)
| EvLogError (msg : string)                                      (* [log.Error] *)
| EvDial (tlsConfig : option Tls.Config) (network addr : string) (* [net.Dial] / [tls.Dial] *)
| EvSetKeepAlive (on : bool)
| EvSetKeepAlivePeriod (d : Z)
| EvDo (req : HijackRequest)                                     (* [clientconn.Do(req)] *)
| EvHijack                                                       (* [clientconn.Hijack()] *)
| EvStarted                                                      (* [started <- rwc] *)
| EvCopyOut (data : string)      (* [io.Copy(stdout, br)] moved bytes remote -> client *)
| EvCopyIn (data : string)       (* [io.Copy(rwc, in)] moved bytes client -> remote *)
| EvCloseWrite                   (* [conn.CloseWrite()] *)
| EvRwcClose                     (* deferred [rwc.Close()] *)
| EvClientconnClose              (* deferred [clientconn.Close()] *)
| EvPrintln.                     (* [fmt.Println(br)] *)

(** *** The relay part of [hijack], as an interleaving of its goroutines *)

(** Where the goroutine that called [hijack] stands, after [Hijack()]. *)
Inductive MainPc :=
| PcStarted                          (* [if started != nil { started <- rwc }] *)
| PcGoStdout                         (* [if stdout != nil || stderr != nil { go .. }] *)
| PcGoStdin                          (* [go func() error { .. }()] *)
| PcReceive                          (* [if .. { if err := <-receiveStdout; .. } }] *)
| PcGoPrint                          (* [go func() { for { fmt.Println(br) } }()] *)
| PcReturn (err : option string)     (* returning: deferred [rwc.Close()] is next *)
| PcDefer (err : option string)      (* deferred [clientconn.Close()] is next *)
| PcExited (err : option string).    (* [hijack] has returned *)

Inductive GoStdout := OutNotStarted | OutRunning | OutFinished.
Inductive GoStdin := InNotStarted | InCopying | InCloseWrite | InFinished.

(** The arguments of [hijack] the relay part reads, and the connection. *)
Record Args := mkArgs {
  setRawTerminal : bool;
  in_ : option WsConn;
  stdout : option WsConn;
  stderr : option WsConn;
  started : option unit;
  rwc : NetConn
}.

Record Relay := mkRelay {
  pc : MainPc;
  g_stdout : GoStdout;
  g_stdin : GoStdin;
  g_print : bool;
  rwc_closes : nat;            (* calls of [rwc.Close()] so far *)
  clientconn_closes : nat;     (* calls of [clientconn.Close()] so far *)
  write_closed : bool;
  client_gone : bool;          (* the browser has closed the websocket *)
  remote_gone : bool;          (* the cluster manager has closed the socket *)
  trace : list Event
}.

(** A channel of errors: [None] is the nil channel, [Some q] a channel with
    the values [q] waiting to be received. *)
Definition Chan := option (list (option string)).

(** [<-c]: a receive from a nil channel, or from one with nothing sent,
    does not proceed. *)
Definition recv (c : Chan) : option (option string) :=
  match c with
  | None => None
  | Some [] => None
  | Some (v :: _) => Some v
  end.

(** [var receiveStdout chan error]: declared, never made, never sent to. *)
Definition receiveStdout : Chan := None.

(** What may happen next: one of the goroutines of [hijack] moves, or one of
    the two peers closes its end. *)
Inductive Action :=
| RunMain
| RunStdout (data : option string)   (* copy a chunk, or [None]: the copy ends *)
| RunStdin (data : option string)
| RunPrint
| ClientCloses
| RemoteCloses.

Definition log (e : Event) (s : Relay) : Relay :=
  mkRelay (pc s) (g_stdout s) (g_stdin s) (g_print s) (rwc_closes s)
          (clientconn_closes s) (write_closed s) (client_gone s) (remote_gone s)
          (trace s ++ [e])%list.

Definition set_pc (p : MainPc) (s : Relay) : Relay :=
  mkRelay p (g_stdout s) (g_stdin s) (g_print s) (rwc_closes s)
          (clientconn_closes s) (write_closed s) (client_gone s) (remote_gone s) (trace s).

Definition set_stdout (g : GoStdout) (s : Relay) : Relay :=
  mkRelay (pc s) g (g_stdin s) (g_print s) (rwc_closes s)
          (clientconn_closes s) (write_closed s) (client_gone s) (remote_gone s) (trace s).

Definition set_stdin (g : GoStdin) (s : Relay) : Relay :=
  mkRelay (pc s) (g_stdout s) g (g_print s) (rwc_closes s)
          (clientconn_closes s) (write_closed s) (client_gone s) (remote_gone s) (trace s).

Definition wants_output (ar : Args) : bool :=
  match stdout ar, stderr ar with
  | None, None => false
  | _, _ => true
  end.

Definition is_some {A} (o : option A) : bool :=
  match o with Some _ => true | None => false end.

(** The socket can no longer carry data. *)
Definition broken (s : Relay) : bool :=
  client_gone s || remote_gone s || negb (rwc_closes s =? 0)%nat.

(** The next step of the calling goroutine; [None] when it cannot move. *)
Definition step_main (ar : Args) (s : Relay) : option Relay :=
  match pc s with
  | PcStarted =>
      (* the send on [started] is taken to find its receiver *)
      Some (set_pc PcGoStdout (if is_some (started ar) then log EvStarted s else s))
  | PcGoStdout =>
      Some (set_pc PcGoStdin (if wants_output ar then set_stdout OutRunning s else s))
  | PcGoStdin =>
      Some (set_pc PcReceive (set_stdin InCopying s))
  | PcReceive =>
      if wants_output ar then
        match recv receiveStdout with
        | None => None
        | Some (Some err) => Some (set_pc (PcReturn (Some err)) s)
        | Some None => Some (set_pc PcGoPrint s)
        end
      else Some (set_pc PcGoPrint s)
  | PcGoPrint =>
      Some (set_pc (PcReturn None)
                   (mkRelay (pc s) (g_stdout s) (g_stdin s) true (rwc_closes s)
                            (clientconn_closes s) (write_closed s) (client_gone s)
                            (remote_gone s) (trace s)))
  | PcReturn err =>
      Some (set_pc (PcDefer err)
                   (log EvRwcClose
                        (mkRelay (pc s) (g_stdout s) (g_stdin s) (g_print s)
                                 (S (rwc_closes s)) (clientconn_closes s) (write_closed s)
                                 (client_gone s) (remote_gone s) (trace s))))
  | PcDefer err =>
      Some (set_pc (PcExited err)
                   (log EvClientconnClose
                        (mkRelay (pc s) (g_stdout s) (g_stdin s) (g_print s)
                                 (rwc_closes s) (S (clientconn_closes s)) (write_closed s)
                                 (client_gone s) (remote_gone s) (trace s))))
  | PcExited _ => None
  end.

(** The goroutine [if setRawTerminal && stdout != nil { io.Copy(stdout, br) }]. *)
Definition step_stdout (ar : Args) (data : option string) (s : Relay) : option Relay :=
  match g_stdout s with
  | OutRunning =>
      if setRawTerminal ar && is_some (stdout ar) then
        match data with
        | Some d => if broken s then None else Some (log (EvCopyOut d) s)
        | None => if broken s then Some (set_stdout OutFinished s) else None
        end
      else Some (set_stdout OutFinished s)
  | _ => None
  end.

(** The goroutine [if in != nil { io.Copy(rwc, in) }; CloseWrite if the
    connection has it]. *)
Definition step_stdin (ar : Args) (data : option string) (s : Relay) : option Relay :=
  match g_stdin s with
  | InCopying =>
      if is_some (in_ ar) then
        match data with
        | Some d => if broken s then None else Some (log (EvCopyIn d) s)
        | None => if broken s then Some (set_stdin InCloseWrite s) else None
        end
      else Some (set_stdin InCloseWrite s)
  | InCloseWrite =>
      if has_CloseWrite (rwc ar) then
        Some (set_stdin InFinished
                (log EvCloseWrite
                     (mkRelay (pc s) (g_stdout s) (g_stdin s) (g_print s) (rwc_closes s)
                              (clientconn_closes s) true (client_gone s) (remote_gone s)
                              (trace s))))
      else Some (set_stdin InFinished s)
  | _ => None
  end.

Definition step (ar : Args) (act : Action) (s : Relay) : option Relay :=
  match act with
  | RunMain => step_main ar s
  | RunStdout d => step_stdout ar d s
  | RunStdin d => step_stdin ar d s
  | RunPrint => if g_print s then Some (log EvPrintln s) else None
  | ClientCloses =>
      Some (mkRelay (pc s) (g_stdout s) (g_stdin s) (g_print s) (rwc_closes s)
                    (clientconn_closes s) (write_closed s) true (remote_gone s) (trace s))
  | RemoteCloses =>
      Some (mkRelay (pc s) (g_stdout s) (g_stdin s) (g_print s) (rwc_closes s)
                    (clientconn_closes s) (write_closed s) (client_gone s) true (trace s))
  end.

(** Run a schedule; an action that cannot happen in the current state is
    skipped. *)
Fixpoint run (ar : Args) (sched : list Action) (s : Relay) : Relay :=
  match sched with
  | [] => s
  | act :: rest =>
      match step ar act s with
      | Some s' => run ar rest s'
      | None => run ar rest s
      end
  end%list.

Definition init (t : list Event) : Relay :=
  mkRelay PcStarted OutNotStarted InNotStarted false 0 0 false false false t.

Definition returned (s : Relay) : option (option string) :=
  match pc s with
  | PcExited err => Some err
  | _ => None
  end.

(** *** [hijack] *)

(** [hijack]: the trace of what it did under the schedule [sched], and its
    return value if it has returned ([Some None] is [return nil]); [None]
    means the call is still in progress when the schedule ends. *)
Definition hijack (env : Env) (a : Api) (addr method path : string)
           (setRawTerminal : bool) (in_ : option WsConn) (stdout stderr : option WsConn)
           (started : option unit) (sched : list Action)
  : list Event * option (option string) :=
  let execConfig := Dockerclient.mkExecConfig false false false true None false in
  match Dockerclient.Marshal execConfig with
  | inl err => ([], Some (Some err))
  | inr buf =>
      match http_NewRequest env method path with
      | Some err => ([], Some (Some err))
      | None =>
          let req :=
            mkHijackReq method path addr
              (Http.Header_Set
                 (Http.Header_Set
                    (Http.Header_Set
                       (Http.Header_Set [] "User-Agent" "Docker-Client")
                       "Content-Type" "text/plain")
                    "Connection" "Upgrade")
                 "Upgrade" "tcp")
              buf in
          let tlsConfig := Dockerclient.TLSConfig (DockerClient (manager a)) in
          let '(dial, dialErr) :=
            match tlsConfig with
            | None => (TCPConn addr, net_Dial env "tcp" addr)
            | Some cfg => (TLSConn addr cfg, tls_Dial env "tcp" addr cfg)
            end in
          let t0 := [EvDial tlsConfig "tcp" addr] in
          match dialErr with
          | Some err => (t0, Some (Some err))
          | None =>
              let t1 :=
                if is_TCPConn dial
                then (t0 ++ [EvSetKeepAlive true; EvSetKeepAlivePeriod (30 * Second)])%list
                else t0 in
              (* [if err != nil { return err }]: [err] is the error of
                 [http.NewRequest], nil on this path.  Then
                 clientconn := NewClientConn(dial, nil); defer clientconn.Close();
                 clientconn.Do(req); rwc, br := clientconn.Hijack(); defer rwc.Close() *)
              let t2 := (t1 ++ [EvDo req; EvHijack])%list in
              let ar := mkArgs setRawTerminal in_ stdout stderr started dial in
              let s := run ar sched (init t2) in
              (trace s, returned s)
          end
      end
  end%list.

(** *** [execContainer] *)

Inductive Outcome :=
| Returned          (* [execContainer] has returned *)
| InHijack.         (* the call of [hijack] has not returned *)

Definition zeroInfo : Dockerclient.ContainerInfo := Dockerclient.mkContainerInfo EmptyString.

(** The URL of the session-creation request. *)
Definition exec_url (host containerId : string) : string :=
  host ++ "/containers/" ++ containerId ++ "/exec".

(** The URL of the resize request. *)
Definition resize_url (host execId ttyWidth ttyHeight : string) : string :=
  host ++ "/exec/" ++ execId ++ "/resize?w=" ++ ttyWidth ++ "&h=" ++ ttyHeight.

Definition execContainer (env : Env) (a : Api) (ws : WsConn) (sched : list Action)
  : list Event * Outcome :=
  let qry := wsQuery ws in
  let containerId := Values_Get qry "id" in
  let command := Values_Get qry "cmd" in
  let ttyWidth := Values_Get qry "w" in
  let ttyHeight := Values_Get qry "h" in
  let cmd := Strings.Split command ","%char in
  let clientUrl := Dockerclient.URL (DockerClient (manager a)) in
  let host := Http.Scheme clientUrl ++ "://" ++ Http.Host clientUrl in
  let execConfig := Dockerclient.mkExecConfig true true true true (Some cmd) false in
  match Dockerclient.Marshal execConfig with
  | inl err => ([EvLogError err], Returned)
  | inr buf =>
      let u := exec_url host containerId in
      let t0 := [EvPost u "application/json" (Some buf)] in
      match http_Post env u "application/json" (Some buf) with
      | PostErr err => (t0 ++ [EvLogError err], Returned)
      | PostResp _ (inl err) => (t0 ++ [EvLogError err], Returned)
      | PostResp _ (inr data) =>
          (* var info; json.Unmarshal(data, &info): the error is dropped *)
          let info := fst (json_Unmarshal env data) in
          match hijack env a (Http.Host clientUrl) "POST"
                       ("/exec/" ++ Dockerclient.Id info ++ "/start")
                       true (Some ws) (Some ws) (Some ws) None sched with
          | (t1, None) => (t0 ++ t1, InHijack)
          | (t1, Some (Some err)) =>
              (t0 ++ t1 ++ [EvLogError ("error during hijack: " ++ err)], Returned)
          | (t1, Some None) =>
              (* resize *)
              let u := resize_url host (Dockerclient.Id info) ttyWidth ttyHeight in
              let t2 := [EvPost u "application/json" None] in
              match http_Post env u "application/json" None with
              | PostErr err => (t0 ++ t1 ++ t2 ++ [EvLogError err], Returned)
              | PostResp _ _ => (t0 ++ t1 ++ t2, Returned)
              end
          end
      end
  end%list.

(** *** Vocabulary for the properties *)

(** Events only the relay part of [hijack] produces. *)
Definition relay_event (e : Event) : bool :=
  match e with
  | EvStarted | EvCopyOut _ | EvCopyIn _ | EvCloseWrite
  | EvRwcClose | EvClientconnClose | EvPrintln => true
  | _ => false
  end.

(** A release of the hijacked connection. *)
Definition close_event (e : Event) : bool :=
  match e with
  | EvRwcClose | EvClientconnClose => true
  | _ => false
  end.

(** The calling goroutine has not got past the receive. *)
Definition before_receive (p : MainPc) : bool :=
  match p with
  | PcStarted | PcGoStdout | PcGoStdin | PcReceive => true
  | _ => false
  end.

(** The calling goroutine is at or before the receive and nothing has been
    closed. *)
Definition held (s : Relay) : Prop :=
  before_receive (pc s) = true /\ rwc_closes s = 0%nat /\ clientconn_closes s = 0%nat.

(** A session used in the examples: container [abc123], command
    [sh -c "echo hi"], an 80x24 terminal, a cluster manager at
    [swarm:2375] that answers the creation request with [createStatus] and
    [createBody], which unmarshal to [info] with the error [unmarshalErr].
    [demo_parse] stands for [url.ParseRequestURI] on proxy targets: scheme,
    then a host without percent signs. *)
Definition demo_parse (rawurl : string) : string + Http.URL :=
  let check scheme host :=
    if Strings.forall_bytes (fun c => negb (Ascii.eqb c "%"%char)) host
    then inr (Http.mkURL scheme host EmptyString)
    else inl "hexadecimal escape in host" in
  match Strings.strip "https://" rawurl with
  | Some host => check "https" host
  | None =>
      match Strings.strip "http://" rawurl with
      | Some host => check "http" host
      | None => inl "invalid URI for request"
      end
  end.

Definition demo_env (createStatus : nat) (createBody : string)
           (info : Dockerclient.ContainerInfo) (unmarshalErr : option string) : Env :=
  mkEnv demo_parse
        (fun _ _ => inl Http.StatusBadGateway)
        (fun _ _ _ => PostResp createStatus (inr createBody))
        (fun _ => (info, unmarshalErr))
        (fun _ _ => None)
        (fun _ _ => None)
        (fun _ _ _ => None).

Definition demo_api (tlsConfig : option Tls.Config) : Api :=
  NewApi ":8080"
         (mkManager (Dockerclient.mkDockerClient
                       (Http.mkURL "http" "swarm:2375" EmptyString) tlsConfig))
         []%list true.

Definition demo_ws : WsConn :=
  mkWs [ ("id", ["abc123"]); ("cmd", ["sh,-c,echo hi"]); ("w", ["80"]); ("h", ["24"]) ]%list.

Definition demo_tls : Tls.Config := Tls.mkConfig "swarm" false.

(** A handler that leaves the response as it is. *)
Definition demo_handler : HandlerFunc := fun _ _ st => st.

Definition demo_req : Http.Request :=
  Http.mkRequest "GET" (Http.mkURL EmptyString EmptyString "/images/json") "/images/json".

Definition demo_state : ServeState := mkServe Http.emptyRW []%list.

(** A cluster endpoint whose host does not parse. *)
Definition bad_client : Dockerclient.DockerClient :=
  Dockerclient.mkDockerClient (Http.mkURL "http" "swarm%zz:2375" EmptyString) None.

(** The goroutines start, the remote output [hi] is relayed, the browser
    closes the websocket, both copies end, the remote closes too, and the
    calling goroutine is given every further chance to run. *)
Definition demo_sched : list Action :=
  [ RunMain; RunMain; RunMain; RunMain;
    RunStdout (Some "hi");
    ClientCloses;
    RunStdin None; RunStdin None;
    RunStdout None;
    RemoteCloses;
    RunMain; RunMain; RunMain; RunMain ]%list.

End Bridge.

(* ------------------------------------------------------------------ *)
(** ** package api: the Docker Hub webhook handler *)

Module Handlers.

(** [strings.Index(s, sep)]: the position of the first [sep] in [s]; [None]
    is -1. *)
Fixpoint Index (s sep : string) : option nat :=
  if String.prefix sep s then Some 0%nat
  else match s with
       | EmptyString => None
       | String _ s' => option_map S (Index s' sep)
       end.

(** [dockerhub.WebhookKey]: the handler reads [Image]. *)
Record WebhookKey := mkWebhookKey { Image : string; Key : string }.

(** What the handler asks from outside. *)
Record HookEnv := mkHookEnv {
  (** [a.manager.WebhookKey(id)]; [inl] carries [err.Error()]. *)
  manager_WebhookKey : string -> string + WebhookKey;
  (** [json.NewDecoder(r.Body).Decode(&webhook)] followed by the read of
      [webhook.Repository.RepoName]: [inl] is a decode error, [inr None] a
      decoded value with a nil pointer on that path (as for the body
      [null]), [inr (Some name)] the repository name. *)
  decode_Webhook : string -> string + option string
}.

Record HookRequest := mkHookRequest {
  hookVars : list (string * string);     (* [mux.Vars(r)] *)
  hookBody : string
}.

(** [vars[key]]: the empty string for a missing key. *)
Definition Vars_get (vars : list (string * string)) (key : string) : string :=
  match find (fun kv => String.eqb (fst kv) key) vars with
  | Some (_, v) => v
  | None => EmptyString
  end.

Definition StatusNotFound : nat := 404.

(** [hubWebhook]; [None] is the panic of a nil pointer dereference.  The log
    lines are left out. *)
Definition hubWebhook (env : HookEnv) (w : Http.ResponseWriter) (r : HookRequest)
  : option Http.ResponseWriter :=
  let vars := hookVars r in
  let id := Vars_get vars "id" in
  match manager_WebhookKey env id with
  | inl err => Some (Http.Error w err StatusNotFound)
  | inr key =>
      match decode_Webhook env (hookBody r) with
      | inl err => Some (Http.Error w err Http.StatusInternalServerError)
      | inr None => None
      | inr (Some repoName) =>
          match Index repoName (Image key) with
          | None => Some (Http.Error w "not found" StatusNotFound)
          | Some _ => Some w
          end
      end
  end.

(** A key store with one key, [k1] for image [shipyard/shipyard], and a
    decoder that takes the body for the repository name ([null] for a nil
    value). *)
Definition demo_hooks : HookEnv :=
  mkHookEnv (fun id => if String.eqb id "k1"
                       then inr (mkWebhookKey "shipyard/shipyard" "k1")
                       else inl "webhook key does not exist")
            (fun body => if String.eqb body "null" then inr None else inr (Some body)).

End Handlers.

(* ------------------------------------------------------------------ *)
(** ** Vocabulary for further properties *)

Module Measure.

Import Bridge.


(** Events of a kind in a trace. *)
Definition count_ev (p : Event -> bool) (l : list Event) : nat :=
  List.length (filter p l).

Definition is_rwc_close (e : Event) : bool :=
  match e with EvRwcClose => true | _ => false end.

Definition is_clientconn_close (e : Event) : bool :=
  match e with EvClientconnClose => true | _ => false end.



Definition is_post (e : Event) : bool :=
  match e with EvPost _ _ _ => true | _ => false end.






(** The state of the relay agrees with its trace and with the position of
    the calling goroutine: what has been closed, and that a return is a
    [return nil] of a call without output sinks. *)
Definition accounted (ar : Args) (s : Relay) : Prop :=
  count_ev is_rwc_close (trace s) = rwc_closes s /\
  count_ev is_clientconn_close (trace s) = clientconn_closes s /\
  match pc s with
  | PcStarted | PcGoStdout | PcGoStdin | PcReceive =>
      rwc_closes s = 0 /\ clientconn_closes s = 0
  | PcGoPrint =>
      wants_output ar = false /\ rwc_closes s = 0 /\ clientconn_closes s = 0
  | PcReturn e =>
      e = None /\ wants_output ar = false /\ rwc_closes s = 0 /\ clientconn_closes s = 0
  | PcDefer e =>
      e = None /\ wants_output ar = false /\ rwc_closes s = 1 /\ clientconn_closes s = 0
  | PcExited e =>
      e = None /\ wants_output ar = false /\ rwc_closes s = 1 /\ clientconn_closes s = 1
  end%nat.



(** A cluster manager that refuses connections. *)
Definition refusing_env : Env :=
  mkEnv demo_parse
        (fun _ _ => inl Http.StatusBadGateway)
        (fun _ _ _ => PostResp 201 (inr "(exec e1)"))
        (fun _ => (Dockerclient.mkContainerInfo "e1", None))
        (fun _ _ => None)
        (fun _ _ => Some "connection refused")
        (fun _ _ _ => Some "connection refused").

(** A forwarder target that answers 200 with a body. *)
Definition upstream_env : Env :=
  mkEnv demo_parse
        (fun _ _ => inr (Forward.mkResponse 200 [("Content-Type", "application/json")]%list
                                            "[]"))
        (fun _ _ _ => PostErr "unused")
        (fun _ => (zeroInfo, None))
        (fun _ _ => None)
        (fun _ _ => None)
        (fun _ _ _ => None).


(** A notification for key [k1] from a repository of another owner. *)
Definition demo_hook_request : Handlers.HookRequest :=
  Handlers.mkHookRequest [("id", "k1")]%list "evil/shipyard/shipyard2".

(** The mounts of the top-level mux, in the order of the [Handle] calls of
    [Run]. *)
Definition mounts : list (string * Api.TopHandler) :=
  [ ("/", Api.FileServer "static");
    ("/api/", Api.apiAuthRouter);
    ("/account/", Api.accountAuthRouter);
    ("/auth/", Api.loginRouter);
    ("/hub/", Api.hubRouter);
    ("/containers/", Api.swarmAuthRouter);
    ("/_ping", Api.swarmAuthRouter);
    ("/commit", Api.swarmAuthRouter);
    ("/build", Api.swarmAuthRouter);
    ("/events", Api.swarmAuthRouter);
    ("/version", Api.swarmAuthRouter);
    ("/images/", Api.swarmAuthRouter);
    ("/exec/", Api.swarmAuthRouter);
    ("/v1.17/", Api.swarmAuthRouter);
    ("/v1.18/", Api.swarmAuthRouter) ]%list.

End Measure.

(* ------------------------------------------------------------------ *)
(** * Properties *)

(** ** Strings *)

Section StringFacts.

Lemma append_nil_r (s : string) : s ++ EmptyString = s.
Proof. induction s as [|c s IH]; simpl; [reflexivity | now rewrite IH]. Qed.

Lemma append_assoc (a b c : string) : (a ++ b) ++ c = a ++ (b ++ c).
Proof. induction a as [|x a IH]; simpl; [reflexivity | now rewrite IH]. Qed.

Lemma strip_app (p s : string) : Strings.strip p (p ++ s) = Some s.
Proof.
  induction p as [|c p IH]; simpl; [reflexivity|].
  now rewrite Ascii.eqb_refl.
Qed.

Lemma strip_inv (p s r : string) : Strings.strip p s = Some r -> s = p ++ r.
Proof.
  revert s; induction p as [|c p IH]; intros s H; simpl in *.
  - now inversion H.
  - destruct s as [|d s]; [discriminate|].
    destruct (Ascii.eqb_spec c d) as [->|]; [|discriminate].
    now rewrite (IH _ H).
Qed.

Lemma prefix_inv (p s : string) : String.prefix p s = true -> exists r, s = p ++ r.
Proof.
  revert s; induction p as [|c p IH]; intros s H.
  - now exists s.
  - destruct s as [|d s]; simpl in H; [discriminate|].
    destruct (Ascii.ascii_dec c d) as [->|]; [|discriminate].
    destruct (IH _ H) as [r ->]. now exists r.
Qed.

Lemma prefix_app (p r : string) : String.prefix p (p ++ r) = true.
Proof.
  induction p as [|c p IH]; simpl; [now destruct r|].
  destruct (Ascii.ascii_dec c c); [assumption | congruence].
Qed.

Lemma forall_bytes_app (f : ascii -> bool) (a b : string) :
  Strings.forall_bytes f (a ++ b) = Strings.forall_bytes f a && Strings.forall_bytes f b.
Proof.
  induction a as [|c a IH]; simpl; [reflexivity|].
  now rewrite IH, andb_assoc.
Qed.

(** Joining the pieces of a split gives the string back. *)
Lemma Join_Split (s : string) (sep : ascii) :
  Strings.Join (Strings.Split s sep) (String sep EmptyString) = s.
Proof.
  unfold Strings.Join.
  induction s as [|c s IH]; [reflexivity|].
  simpl. destruct (Ascii.eqb_spec c sep) as [->|Hne].
  - destruct (Strings.Split s sep) as [|p ps] eqn:E.
    + destruct s; simpl in E; [discriminate|].
      destruct (Ascii.eqb a sep); [discriminate|].
      destruct (Strings.Split s sep); discriminate.
    + simpl. simpl in IH. now rewrite IH.
  - destruct (Strings.Split s sep) as [|p ps] eqn:E.
    + destruct s; simpl in E; [discriminate|].
      destruct (Ascii.eqb a sep); [discriminate|].
      destruct (Strings.Split s sep); discriminate.
    + simpl in *. destruct ps as [|q qs]; simpl in *; now rewrite <- IH.
Qed.

(** No piece of a split contains the separator. *)
Lemma Split_no_sep (s : string) (sep : ascii) :
  Forall (fun piece => Strings.forall_bytes (fun c => negb (Ascii.eqb c sep)) piece = true)
         (Strings.Split s sep).
Proof.
  induction s as [|c s IH]; simpl.
  - now constructor.
  - destruct (Ascii.eqb c sep) eqn:Ec.
    + now constructor.
    + destruct (Strings.Split s sep) as [|p ps]; constructor; simpl.
      * now rewrite Ec.
      * constructor.
      * rewrite Ec. simpl. now inversion IH.
      * now inversion IH.
Qed.

End StringFacts.

(** ** gorilla/mux matching *)

Section MuxFacts.

Import Mux.

Lemma var_match_app (f : ascii -> bool) (k : string -> bool) (v s : string) :
  forall n, Strings.forall_bytes f v = true -> (n <= String.length v)%nat ->
            k s = true -> var_match f n k (v ++ s) = true.
Proof.
  induction v as [|c v IH]; intros n Hf Hn Hk; simpl in *.
  - assert (n = 0%nat) as -> by lia.
    destruct s; simpl; now rewrite Hk.
  - apply andb_prop in Hf as [Hc Hv].
    rewrite Hc, (IH (Nat.pred n) Hv ltac:(lia) Hk).
    apply orb_true_r.
Qed.

(** The template of the versioned alias is the bare template behind the
    literal [/v] and the version variable. *)
Lemma newRouteRegexp_versioned (route : string) :
  newRouteRegexp (Api.version_prefix ++ route)
  = option_map (fun segs => Lit "/v" :: Var "version" ReDigitDotPlus :: segs)
               (newRouteRegexp route).
Proof.
  unfold newRouteRegexp, Api.version_prefix. cbn.
  now destruct (parse_tpl route EmptyString None).
Qed.

Lemma Path_versioned (route : string) (segs : list Seg) :
  Path route = Some segs ->
  Path (Api.version_prefix ++ route)
  = Some (Lit "/v" :: Var "version" ReDigitDotPlus :: segs).
Proof.
  intros H.
  assert (Hn : newRouteRegexp route = Some segs).
  { unfold Path in H. destruct route as [|c r]; [discriminate|].
    destruct c as [[] [] [] [] [] [] [] []]; try discriminate. exact H. }
  change (Path (Api.version_prefix ++ route))
    with (newRouteRegexp (Api.version_prefix ++ route)).
  now rewrite newRouteRegexp_versioned, Hn.
Qed.

Lemma match_versioned (segs : list Seg) (ver path : string) :
  is_version ver = true ->
  match_segs segs path = true ->
  match_segs (Lit "/v" :: Var "version" ReDigitDotPlus :: segs) ("/v" ++ ver ++ path) = true.
Proof.
  unfold is_version. intros Hv Hm. apply andb_prop in Hv as [Hc Hne].
  change (match_segs (Lit "/v" :: Var "version" ReDigitDotPlus :: segs) ("/v" ++ ver ++ path))
    with (var_match (cls ReDigitDotPlus) 1 (match_segs segs) (ver ++ path)).
  apply var_match_app; auto.
  destruct ver; simpl in *; [discriminate | lia].
Qed.

Lemma find_some_handler {H : Type} (rt : Router H) (method path : string) (hd : H) :
  Router_Match rt method path = Some hd ->
  exists r, In r rt /\ Route_Match r method path = true /\ handler r = hd.
Proof.
  unfold Router_Match. intros E.
  destruct (find _ rt) as [r|] eqn:F; [|discriminate].
  apply find_some in F as [Hin Hm]. exists r. repeat split; auto.
  now inversion E.
Qed.

Lemma find_exists {H : Type} (rt : Router H) (method path : string) (r : Route H) :
  In r rt -> Route_Match r method path = true ->
  exists hd, Router_Match rt method path = Some hd.
Proof.
  unfold Router_Match. intros Hin Hm.
  destruct (find _ rt) as [r'|] eqn:F.
  - now exists (handler r').
  - exfalso. pose proof (find_none _ _ F _ Hin) as Hn. simpl in Hn. congruence.
Qed.

(** A path that matches a bare route matches, behind [/v<version>], the
    route registered under the version prefix. *)
Lemma alias_route_matches {H : Type} (method route path ver : string) (hd : H) :
  Route_Match (mkRoute (Path route) [method] hd) method path = true ->
  is_version ver = true ->
  Route_Match (mkRoute (Path (Api.version_prefix ++ route)) [method] hd)
              method ("/v" ++ ver ++ path) = true.
Proof.
  intros Hbare Hver.
  unfold Route_Match in *. cbn [regexp methods] in *.
  destruct (Path route) as [segs|] eqn:E; [|discriminate].
  rewrite (Path_versioned _ _ E).
  apply andb_prop in Hbare as [Hs Hm].
  now rewrite (match_versioned segs ver path Hver Hs), Hm.
Qed.

End MuxFacts.

(** ** The swarm router *)

Section SwarmRouterFacts.

Import Mux Api.

Variable sr : HandlerFunc.

Lemma fold_add_routes (order : list (string * string * HandlerFunc)) :
  forall acc, fold_left add_routes order acc = (acc ++ flat_map routes_of order)%list.
Proof.
  induction order as [|e order IH]; intros acc; simpl.
  - now rewrite app_nil_r.
  - rewrite IH. destruct e as [[method route] fct]. simpl.
    now rewrite <- app_assoc.
Qed.

Lemma swarmRouter_routes (order : list (string * string * HandlerFunc)) :
  swarmRouter order = flat_map routes_of order.
Proof. unfold swarmRouter. now rewrite fold_add_routes. Qed.

Lemma in_swarmRouter (order : list (string * string * HandlerFunc)) (r : Route HandlerFunc) :
  In r (swarmRouter order) <->
  exists method route fct,
    In (method, route, fct) order /\
    (r = mkRoute (Path (version_prefix ++ route)) [method] (wrap fct) \/
     r = mkRoute (Path route) [method] (wrap fct)).
Proof.
  rewrite swarmRouter_routes, in_flat_map. split.
  - intros [[[method route] fct] [Hin Hr]]. exists method, route, fct.
    split; [assumption|]. simpl in Hr. intuition.
  - intros (method & route & fct & Hin & Hr). exists (method, route, fct).
    split; [assumption|]. simpl. intuition.
Qed.

(** Every row of the table [m] is bound to [swarmRedirect]. *)
Lemma m_all_swarmRedirect (method route : string) (fct : HandlerFunc) :
  In (method, route, fct) (range_m (m sr)) -> fct = sr.
Proof.
  unfold range_m, m. simpl.
  intros H.
  repeat (destruct H as [H|H]; [now inversion H|]).
  contradiction.
Qed.

Lemma swarmRouter_handler (order : list (string * string * HandlerFunc))
      (method path : string) (hd : HandlerFunc) :
  Permutation order (range_m (m sr)) ->
  Router_Match (swarmRouter order) method path = Some hd ->
  hd = wrap sr.
Proof.
  intros Hp Hm.
  apply find_some_handler in Hm as (r & Hin & _ & <-).
  apply in_swarmRouter in Hin as (mt & route & fct & Hin & Hr).
  apply (Permutation_in _ Hp), m_all_swarmRedirect in Hin. subst fct.
  now destruct Hr as [-> | ->].
Qed.

End SwarmRouterFacts.

Section RouteTableClaims.

Import Mux Api.

(** C4. For every row (method, route, handler) of the swarm route table, in
    whatever order the table is visited, a request whose path matches the
    bare route and the request for the same path behind [/v<version>] (one or
    more digits and dots) are both dispatched by the swarm router to the same
    handler: the [wrap] closure of that row. *)
Theorem swarm_alias_same_handler
        (sr : HandlerFunc) (order : list (string * string * HandlerFunc))
        (method route : string) (fct : HandlerFunc) (path ver : string) :
  Permutation order (range_m (m sr)) ->
  In (method, route, fct) order ->
  Route_Match (mkRoute (Path route) [method] (wrap fct)) method path = true ->
  is_version ver = true ->
  Route_Match (mkRoute (Path (version_prefix ++ route)) [method] (wrap fct))
              method ("/v" ++ ver ++ path) = true /\
  Router_Match (swarmRouter order) method path = Some (wrap fct) /\
  Router_Match (swarmRouter order) method ("/v" ++ ver ++ path) = Some (wrap fct).
Proof.
  intros Hp Hin Hbare Hver.
  assert (Hfct : fct = sr)
    by (eapply m_all_swarmRedirect, Permutation_in; eauto).
  pose proof (alias_route_matches method route path ver (wrap fct) Hbare Hver) as Halias.
  split; [exact Halias|].
  split.
  - destruct (find_exists (swarmRouter order) method path _
                          (proj2 (in_swarmRouter order _)
                                 (ex_intro _ method (ex_intro _ route (ex_intro _ fct
                                    (conj Hin (or_intror eq_refl))))))
                          Hbare) as [hd Hhd].
    rewrite Hhd. f_equal. rewrite Hfct. eapply swarmRouter_handler; eauto.
  - destruct (find_exists (swarmRouter order) method ("/v" ++ ver ++ path) _
                          (proj2 (in_swarmRouter order _)
                                 (ex_intro _ method (ex_intro _ route (ex_intro _ fct
                                    (conj Hin (or_introl eq_refl))))))
                          Halias) as [hd Hhd].
    rewrite Hhd. f_equal. rewrite Hfct. eapply swarmRouter_handler; eauto.
Qed.

Lemma Header_Set_keeps (hdr : Http.Header) (key value k v : string) :
  k <> key -> In (k, v) hdr -> In (k, v) (Http.Header_Set hdr key value).
Proof.
  intros Hk Hin. unfold Http.Header_Set. apply in_or_app. left.
  apply filter_In. split; [assumption|]. simpl.
  now destruct (String.eqb_spec k key).
Qed.

Lemma WriteHeader_header (code : nat) (w : Http.ResponseWriter) :
  Http.header (Http.WriteHeader code w) = Http.header w.
Proof. unfold Http.WriteHeader. now destruct (Http.status w). Qed.

Lemma Write_header (data : string) (w : Http.ResponseWriter) :
  Http.header (Http.Write data w) = Http.header w.
Proof. unfold Http.Write. simpl. apply WriteHeader_header. Qed.

(** [swarmRedirect] keeps every header already written, but [Content-Type]. *)
Lemma swarmRedirect_keeps_header
      (env : Env) (dUrl : string) (fwd : Forward.Forwarder)
      (a : Api) (req : Http.Request) (st : ServeState) (k v : string) :
  k <> "Content-Type" ->
  In (k, v) (Http.header (rw st)) ->
  In (k, v) (Http.header (rw (swarmRedirect env dUrl fwd a req st))).
Proof.
  intros Hk Hin. unfold swarmRedirect.
  destruct (url_ParseRequestURI env dUrl) as [err|u].
  - unfold with_rw, Http.Error. cbn [rw].
    rewrite Write_header, WriteHeader_header. cbn [Http.header].
    now apply Header_Set_keeps.
  - unfold Forwarder_ServeHTTP. cbn [rw].
    destruct (RoundTrip env _ _) as [code|resp].
    + now rewrite Write_header, WriteHeader_header.
    + rewrite Write_header, WriteHeader_header. cbn [Http.header].
      apply in_or_app. now left.
Qed.

(** C6. For a request matched by any route of the swarm router (bare or
    versioned): with CORS enabled the wrapper adds the three
    Access-Control-Allow headers to the response writer and only then runs
    the forwarder handler on it, and the response still carries them when the
    handler is done; with CORS disabled the wrapper runs the handler on the
    response writer unchanged. *)
Theorem cors_headers_before_handler
        (env : Env) (dUrl : string) (fwd : Forward.Forwarder) (a : Api)
        (order : list (string * string * HandlerFunc))
        (method path : string) (hd : HandlerFunc)
        (req : Http.Request) (st : ServeState) :
  Permutation order (range_m (m (swarmRedirect env dUrl fwd))) ->
  Router_Match (swarmRouter order) method path = Some hd ->
  if enableCors a then
    hd a req st = swarmRedirect env dUrl fwd a req (writeCorsHeaders req st) /\
    Http.header (rw (writeCorsHeaders req st))
    = (Http.header (rw st)
       ++ [ ("Access-Control-Allow-Origin", "*");
            ("Access-Control-Allow-Headers", "Origin, X-Requested-With, Content-Type, Accept");
            ("Access-Control-Allow-Methods", "GET, POST, DELETE, PUT, OPTIONS") ])%list /\
    incl [ ("Access-Control-Allow-Origin", "*");
           ("Access-Control-Allow-Headers", "Origin, X-Requested-With, Content-Type, Accept");
           ("Access-Control-Allow-Methods", "GET, POST, DELETE, PUT, OPTIONS") ]%list
         (Http.header (rw (hd a req st)))
  else
    hd a req st = swarmRedirect env dUrl fwd a req st.
Proof.
  intros Hp Hm.
  rewrite (swarmRouter_handler _ order method path hd Hp Hm).
  unfold wrap. destruct (enableCors a); [|reflexivity].
  assert (Hh : Http.header (rw (writeCorsHeaders req st))
               = (Http.header (rw st)
                  ++ [ ("Access-Control-Allow-Origin", "*");
                       ("Access-Control-Allow-Headers",
                        "Origin, X-Requested-With, Content-Type, Accept");
                       ("Access-Control-Allow-Methods",
                        "GET, POST, DELETE, PUT, OPTIONS") ])%list).
  { unfold writeCorsHeaders, with_rw, add_header, Http.Header_Add. simpl.
    now rewrite <- !app_assoc. }
  split; [reflexivity|]. split; [exact Hh|].
  intros [k v] Hin.
  apply swarmRedirect_keeps_header.
  - simpl in Hin.
    destruct Hin as [E|[E|[E|[]]]]; inversion E; discriminate.
  - rewrite Hh. apply in_or_app. now right.
Qed.

End RouteTableClaims.

(** ** The top-level mux *)

Section ServeMuxFacts.

Import ServeMux.

Variable Handler : Type.
Variable path : string.

Lemma fold_match_from (mx : ServeMux Handler) :
  forall acc n hd,
    fold_left (match_step path) mx acc = Some (n, hd) ->
    (exists n', acc = Some (n', hd)) \/
    (exists kv, In kv mx /\ pathMatch (fst kv) path = true /\ h (snd kv) = hd).
Proof.
  induction mx as [|kv mx IH]; intros acc n hd E; simpl in E.
  - left. now exists n.
  - destruct (IH _ _ _ E) as [[n' Hacc] | (kv' & Hin & Hm & Hh)].
    + unfold match_step in Hacc.
      destruct (pathMatch (fst kv) path) eqn:Hp.
      * destruct acc as [[n0 h0]|].
        -- destruct (n0 <? String.length (fst kv))%nat.
           ++ right. exists kv. inversion Hacc. simpl. auto.
           ++ left. now exists n'.
        -- right. exists kv. inversion Hacc. simpl. auto.
      * left. now exists n'.
    + right. exists kv'. simpl. auto.
Qed.

Lemma fold_match_some (mx : ServeMux Handler) :
  forall acc,
    (acc <> None \/ exists kv, In kv mx /\ pathMatch (fst kv) path = true) ->
    fold_left (match_step path) mx acc <> None.
Proof.
  induction mx as [|kv mx IH]; intros acc Hc; simpl.
  - destruct Hc as [Hc | (kv & [] & _)]. exact Hc.
  - apply IH. destruct Hc as [Hc | (kv' & [<- | Hin] & Hm)].
    + left. unfold match_step. destruct (pathMatch (fst kv) path); [|exact Hc].
      destruct acc as [[n0 h0]|]; [|discriminate].
      destruct (n0 <? String.length (fst kv))%nat; discriminate.
    + left. unfold match_step. rewrite Hm.
      destruct acc as [[n0 h0]|]; [|discriminate].
      destruct (n0 <? String.length (fst kv))%nat; discriminate.
    + right. now exists kv'.
Qed.

(** When every matching entry carries the same handler and one entry
    matches, that handler is chosen. *)
Lemma match_unique (mx : ServeMux Handler) (hd : Handler) :
  (forall kv, In kv mx -> pathMatch (fst kv) path = true -> h (snd kv) = hd) ->
  (exists kv, In kv mx /\ pathMatch (fst kv) path = true) ->
  match_ mx path = Some hd.
Proof.
  intros Hall Hex. unfold match_.
  destruct (fold_left (match_step path) mx None) as [[n hd']|] eqn:E.
  - simpl. f_equal.
    destruct (fold_match_from _ _ _ _ E) as [[n' Hn] | (kv & Hin & Hm & Hh)].
    + discriminate.
    + rewrite <- Hh. now apply Hall.
  - exfalso. eapply fold_match_some; [right; exact Hex | exact E].
Qed.

End ServeMuxFacts.

Section VersionPrefix.

Import Mux Api.

Lemma version_no_slash (ver : string) : is_version ver = true -> Strings.no_slash ver = true.
Proof.
  unfold is_version, Strings.no_slash. intros H. apply andb_prop in H as [H _].
  induction ver as [|c ver IH]; simpl in *; [reflexivity|].
  apply andb_prop in H as [Hc Hv]. rewrite (IH Hv), andb_true_r.
  destruct (Ascii.eqb_spec c "/"%char) as [->|]; [discriminate | reflexivity].
Qed.

(** The text before the first slash is determined. *)
Lemma segment_unique (a b r1 r2 : string) :
  Strings.no_slash a = true -> Strings.no_slash b = true ->
  a ++ String "/" r1 = b ++ String "/" r2 -> a = b.
Proof.
  unfold Strings.no_slash. revert b.
  induction a as [|c a IH]; intros [|d b] Ha Hb E; simpl in *.
  - reflexivity.
  - inversion E; subst. rewrite Ascii.eqb_refl in Hb. discriminate.
  - inversion E; subst. rewrite Ascii.eqb_refl in Ha. discriminate.
  - inversion E; subst.
    apply andb_prop in Ha as [_ Ha]. apply andb_prop in Hb as [_ Hb].
    now rewrite (IH b Ha Hb H1).
Qed.

Lemma slash_not_in (a r s : string) :
  Strings.no_slash s = true -> a ++ String "/" r = s -> False.
Proof.
  intros Hs E. subst s. unfold Strings.no_slash in Hs.
  rewrite forall_bytes_app in Hs. simpl in Hs.
  rewrite andb_false_r in Hs. discriminate.
Qed.

Lemma parse_tpl_head (tpl : string) :
  (forall raw segs, parse_tpl tpl raw None = Some segs ->
                    exists raw' rest, segs = Lit (raw ++ raw') :: rest) /\
  (forall raw acc segs, parse_tpl tpl raw (Some acc) = Some segs ->
                        exists rest, segs = Lit raw :: rest).
Proof.
  induction tpl as [|c tpl [IH1 IH2]]; split; intros raw.
  - intros segs H. simpl in H. inversion H.
    exists EmptyString, []%list. now rewrite append_nil_r.
  - intros acc segs H. discriminate.
  - intros segs H. simpl in H.
    destruct (Ascii.eqb c "{"%char).
    + destruct (IH2 _ _ _ H) as [rest ->].
      exists EmptyString, rest. now rewrite append_nil_r.
    + destruct (Ascii.eqb c "}"%char); [discriminate|].
      destruct (IH1 _ _ H) as (raw' & rest & ->).
      exists (String c raw'), rest. now rewrite append_assoc.
  - intros acc segs H. simpl in H.
    destruct (Ascii.eqb c "}"%char).
    + destruct (var_of acc); [|discriminate].
      destruct (parse_tpl tpl EmptyString None); [|discriminate].
      inversion H. eauto.
    + destruct (Ascii.eqb c "{"%char); [discriminate|].
      eapply IH2; eauto.
Qed.

(** A path that matches a bare route starts with a slash. *)
Lemma bare_match_rooted {H : Type} (route method rest : string)
      (ms : list string) (hd : H) :
  Route_Match (mkRoute (Path route) ms hd) method rest = true ->
  exists rest', rest = String "/" rest'.
Proof.
  unfold Route_Match. cbn [regexp methods].
  destruct (Path route) as [segs|] eqn:E; [|discriminate].
  intros Hm. apply andb_prop in Hm as [Hm _].
  unfold Path in E. destruct route as [|c r]; [discriminate|].
  destruct (Ascii.eqb_spec c "/"%char) as [->|Hne].
  - unfold newRouteRegexp in E. cbn in E.
    destruct (proj1 (parse_tpl_head r) _ _ E) as (raw' & tl & ->).
    cbn [match_segs append Strings.strip] in Hm.
    destruct rest as [|d rest]; [discriminate|].
    destruct (Ascii.eqb_spec "/"%char d) as [<-|]; [|discriminate].
    now exists rest.
  - exfalso. destruct c as [[] [] [] [] [] [] [] []]; try discriminate.
    now apply Hne.
Qed.

End VersionPrefix.

Section GlobalMuxClaims.

Import Mux Api ServeMux.

Lemma globalMux_registered : globalMux = Some globalMux_entries.
Proof. reflexivity. Qed.

Lemma pathMatch_inv (pat p : string) :
  pathMatch pat p = true ->
  (ends_with_slash pat = true /\ exists r, p = pat ++ r) \/
  (ends_with_slash pat = false /\ p = pat).
Proof.
  unfold pathMatch, ends_with_slash.
  destruct (Strings.last_byte pat) as [c|]; [|discriminate].
  destruct (Ascii.eqb c "/"%char); intros H.
  - left. split; [reflexivity|]. now apply prefix_inv.
  - right. split; [reflexivity|]. symmetry. now apply String.eqb_eq.
Qed.

(** For a path behind a version other than 1.17 and 1.18, the only entry of
    the top-level mux that matches is the file server at [/]. *)
Lemma only_root_matches (ver rest' : string) (kv : string * muxEntry TopHandler) :
  is_version ver = true -> ver <> "1.17" -> ver <> "1.18" ->
  In kv globalMux_entries ->
  pathMatch (fst kv) ("/v" ++ ver ++ String "/" rest') = true ->
  h (snd kv) = FileServer "static".
Proof.
  intros Hv H17 H18 Hin Hm.
  pose proof (version_no_slash _ Hv) as Hns.
  unfold globalMux_entries in Hin. simpl in Hin.
  repeat (destruct Hin as [<- | Hin];
          [ first
              [ reflexivity
              | exfalso; cbn [fst] in Hm;
                destruct (pathMatch_inv _ _ Hm) as [[Hs [r E]] | [Hs E]];
                (first
                   [ cbv in Hs; discriminate Hs
                   | simpl in E; first
                       [ discriminate E
                       | inversion E;
                         match goal with
                         | E' : (ver ++ _)%string = _ |- _ =>
                             first
                               [ apply H17;
                                 apply (segment_unique ver "1.17" rest' r Hns eq_refl E')
                               | apply H18;
                                 apply (segment_unique ver "1.18" rest' r Hns eq_refl E')
                               | eapply slash_not_in; [ | exact E' ]; reflexivity ]
                         end ] ]) ]
          | ]).
  contradiction.
Qed.

(** C10. The swarm router has a versioned route for every version string,
    but the top-level mux mounts it only under [/v1.17/] and [/v1.18/]: a
    request for a swarm route behind any other version matches its versioned
    route, yet the top-level mux never hands it to the swarm router; it
    answers with a redirect when the path is not clean and with the static
    file server otherwise. *)
Theorem other_versions_not_dispatched_to_swarm
        (cleanPath : string -> string) (sr : HandlerFunc)
        (method route : string) (fct : HandlerFunc) (ver rest : string) :
  In (method, route, fct) (range_m (m sr)) ->
  Route_Match (mkRoute (Path route) [method] (wrap fct)) method rest = true ->
  is_version ver = true -> ver <> "1.17" -> ver <> "1.18" ->
  Route_Match (mkRoute (Path (version_prefix ++ route)) [method] (wrap fct))
              method ("/v" ++ ver ++ rest) = true /\
  globalMux_Handler cleanPath ("/v" ++ ver ++ rest)
  = Some (if String.eqb (cleanPath ("/v" ++ ver ++ rest)) ("/v" ++ ver ++ rest)
          then FileServer "static"
          else RedirectHandler (cleanPath ("/v" ++ ver ++ rest)) 301) /\
  globalMux_Handler cleanPath ("/v" ++ ver ++ rest) <> Some swarmAuthRouter.
Proof.
  intros Hin Hbare Hv H17 H18.
  split; [now apply alias_route_matches|].
  destruct (bare_match_rooted _ _ _ _ _ Hbare) as [rest' ->].
  assert (E : globalMux_Handler cleanPath ("/v" ++ ver ++ String "/" rest')
              = Some (if String.eqb (cleanPath ("/v" ++ ver ++ String "/" rest'))
                                    ("/v" ++ ver ++ String "/" rest')
                      then FileServer "static"
                      else RedirectHandler (cleanPath ("/v" ++ ver ++ String "/" rest')) 301)).
  { unfold globalMux_Handler. rewrite globalMux_registered.
    cbn [option_map]. unfold Handler_of, handler.
    rewrite (match_unique TopHandler _ globalMux_entries (FileServer "static")).
    - reflexivity.
    - intros kv. now apply only_root_matches.
    - exists ("/", mkEntry true (FileServer "static") "/"). split.
      + unfold globalMux_entries. simpl. now left.
      + reflexivity. }
  split; [exact E|].
  rewrite E. destruct (String.eqb _ _); discriminate.
Qed.

End GlobalMuxClaims.

(** ** The relay machine *)

Section RelayFacts.

Import Api Bridge.

Ltac break_step H :=
  repeat match type of H with
         | context [match ?x with _ => _ end] => destruct x eqn:?
         | context [if ?x then _ else _] => destruct x eqn:?
         end.

(** A step only appends relay events to the trace. *)
Lemma step_trace (ar : Args) (act : Action) (s s' : Relay) :
  step ar act s = Some s' ->
  exists ext, trace s' = (trace s ++ ext)%list /\ forallb relay_event ext = true.
Proof.
  intros H.
  destruct act; cbn [step] in H;
    unfold step_main, step_stdout, step_stdin in H;
    break_step H; try discriminate H;
    inversion H; subst; cbn;
    eexists; (split; [ first [ reflexivity | symmetry; apply app_nil_r ] | reflexivity ]).
Qed.

Lemma run_trace (ar : Args) (sched : list Action) :
  forall s, exists ext,
    trace (run ar sched s) = (trace s ++ ext)%list /\ forallb relay_event ext = true.
Proof.
  induction sched as [|act sched IH]; intros s; simpl.
  - exists []%list. now rewrite app_nil_r.
  - destruct (step ar act s) as [s'|] eqn:E; [|apply IH].
    destruct (step_trace _ _ _ _ E) as (e1 & H1 & F1).
    destruct (IH s') as (e2 & H2 & F2).
    exists (e1 ++ e2)%list. rewrite H2, H1, <- app_assoc. split; [reflexivity|].
    now rewrite forallb_app, F1, F2.
Qed.

(** With a non-nil [stdout] or [stderr], no step takes the calling goroutine
    past the receive from the nil channel, and no step closes anything. *)
Lemma step_held (ar : Args) (act : Action) (s s' : Relay) :
  wants_output ar = true -> held s -> step ar act s = Some s' ->
  held s' /\
  exists ext, trace s' = (trace s ++ ext)%list /\
              forallb (fun e => relay_event e && negb (close_event e)) ext = true.
Proof.
  intros Hw (Hpc & Hr & Hc) H. unfold held.
  destruct act; cbn [step] in H;
    unfold step_main, step_stdout, step_stdin in H;
    try rewrite Hw in H;
    break_step H; try discriminate H;
    inversion H; subst; cbn in *; try discriminate;
    (split; [ auto | eexists; (split; [ first [ reflexivity | symmetry; apply app_nil_r ]
                                      | reflexivity ]) ]).
Qed.

Lemma run_held (ar : Args) (sched : list Action) :
  wants_output ar = true ->
  forall s, held s ->
    held (run ar sched s) /\
    exists ext, trace (run ar sched s) = (trace s ++ ext)%list /\
                forallb (fun e => relay_event e && negb (close_event e)) ext = true.
Proof.
  intros Hw. induction sched as [|act sched IH]; intros s Hs; simpl.
  - split; [assumption|]. exists []%list. now rewrite app_nil_r.
  - destruct (step ar act s) as [s'|] eqn:E; [|now apply IH].
    destruct (step_held _ _ _ _ Hw Hs E) as (Hs' & e1 & H1 & F1).
    destruct (IH s' Hs') as (Hs'' & e2 & H2 & F2).
    split; [assumption|].
    exists (e1 ++ e2)%list. rewrite H2, H1, <- app_assoc. split; [reflexivity|].
    now rewrite forallb_app, F1, F2.
Qed.

Lemma held_not_returned (s : Relay) : held s -> returned s = None.
Proof.
  intros (Hpc & _). unfold returned. now destruct (pc s).
Qed.

End RelayFacts.

(** ** [hijack] and [execContainer] *)

Section BridgeFacts.

Import Api Bridge.

(** The three ways a call of [hijack] goes: the request cannot be built, the
    dial fails, or the connection is hijacked and the relay runs. *)
Lemma hijack_cases
      (env : Env) (a : Api) (addr method path : string) (setRaw : bool)
      (in_ out err : option WsConn) (started : option unit) (sched : list Action) :
  let tls := Dockerclient.TLSConfig (DockerClient (manager a)) in
  let dialErr := match tls with
                 | None => net_Dial env "tcp" addr
                 | Some cfg => tls_Dial env "tcp" addr cfg
                 end in
  let r := hijack env a addr method path setRaw in_ out err started sched in
  (exists e, http_NewRequest env method path = Some e /\ r = ([]%list, Some (Some e))) \/
  (exists e, http_NewRequest env method path = None /\ dialErr = Some e /\
             r = ([EvDial tls "tcp" addr]%list, Some (Some e))) \/
  (http_NewRequest env method path = None /\ dialErr = None /\
   exists req ext,
     fst r = (EvDial tls "tcp" addr
              :: match tls with
                 | None => [EvSetKeepAlive true; EvSetKeepAlivePeriod (30 * Second)]
                 | Some _ => []
                 end
              ++ EvDo req :: EvHijack :: ext)%list /\
     forallb relay_event ext = true /\
     (wants_output (mkArgs setRaw in_ out err started
                           match tls with
                           | None => TCPConn addr
                           | Some cfg => TLSConn addr cfg
                           end) = true ->
      snd r = None /\ forallb (fun e => negb (close_event e)) ext = true)).
Proof.
  cbv zeta. unfold hijack. cbn [Dockerclient.Marshal].
  destruct (http_NewRequest env method path) as [e|] eqn:Hn.
  - left. now exists e.
  - right.
    destruct (Dockerclient.TLSConfig (DockerClient (manager a))) as [cfg|].
    + destruct (tls_Dial env "tcp" addr cfg) as [e|] eqn:Hd.
      * left. now exists e.
      * right. split; [reflexivity|]. split; [reflexivity|].
        cbn [is_TCPConn fst snd].
        match goal with
        | |- context [run ?ar sched ?s0] =>
            destruct (run_trace ar sched s0) as (ext & Ht & Hf);
            pose proof (run_held ar sched) as Hheld;
            specialize (fun Hw => Hheld Hw s0)
        end.
        eexists _, ext. rewrite Ht. cbn [trace init app].
        split; [reflexivity|]. split; [assumption|].
        intros Hw. destruct (Hheld Hw) as (Hh & ext' & Ht' & Hf').
        { repeat split. }
        split; [now apply held_not_returned|].
        rewrite Ht in Ht'. apply app_inv_head in Ht'. subst ext'.
        rewrite forallb_forall in Hf' |- *. intros x Hx.
        specialize (Hf' x Hx). now apply andb_prop in Hf' as [_ ->].
    + destruct (net_Dial env "tcp" addr) as [e|] eqn:Hd.
      * left. now exists e.
      * right. split; [reflexivity|]. split; [reflexivity|].
        cbn [is_TCPConn fst snd].
        match goal with
        | |- context [run ?ar sched ?s0] =>
            destruct (run_trace ar sched s0) as (ext & Ht & Hf);
            pose proof (run_held ar sched) as Hheld;
            specialize (fun Hw => Hheld Hw s0)
        end.
        eexists _, ext. rewrite Ht. cbn [trace init app].
        split; [reflexivity|]. split; [assumption|].
        intros Hw. destruct (Hheld Hw) as (Hh & ext' & Ht' & Hf').
        { repeat split. }
        split; [now apply held_not_returned|].
        rewrite Ht in Ht'. apply app_inv_head in Ht'. subst ext'.
        rewrite forallb_forall in Hf' |- *. intros x Hx.
        specialize (Hf' x Hx). now apply andb_prop in Hf' as [_ ->].
Qed.

(** The ways a call of [execContainer] goes.  With the websocket as
    [stdout], a hijack that got its connection never returns. *)
Lemma execContainer_cases (env : Env) (a : Api) (ws : WsConn) (sched : list Action) :
  let tls := Dockerclient.TLSConfig (DockerClient (manager a)) in
  let addr := Http.Host (Dockerclient.URL (DockerClient (manager a))) in
  let r := execContainer env a ws sched in
  exists u body,
    (exists e, r = ([EvPost u "application/json" (Some body); EvLogError e]%list, Returned)) \/
    (exists e, r = ([EvPost u "application/json" (Some body);
                     EvDial tls "tcp" addr; EvLogError e]%list, Returned)) \/
    (exists req ext,
        r = ((EvPost u "application/json" (Some body)
              :: EvDial tls "tcp" addr
              :: match tls with
                 | None => [EvSetKeepAlive true; EvSetKeepAlivePeriod (30 * Second)]
                 | Some _ => []
                 end
              ++ EvDo req :: EvHijack :: ext)%list, InHijack) /\
        forallb (fun e => relay_event e && negb (close_event e)) ext = true).
Proof.
  cbv zeta. unfold execContainer. cbn [Dockerclient.Marshal].
  do 2 eexists.
  destruct (http_Post env _ _ _) as [e | code [e | data]].
  - left. now exists e.
  - left. now exists e.
  - match goal with
    | |- context [hijack ?env ?a ?addr ?m ?p ?raw ?i ?o ?e ?st ?sc] =>
        pose proof (hijack_cases env a addr m p raw i o e st sc) as Hc;
        cbv zeta in Hc;
        destruct (hijack env a addr m p raw i o e st sc) as [t1 ret] eqn:Hh
    end.
    destruct Hc as [(e & Hn & Hr) | [(e & Hn & Hd & Hr) | (Hn & Hd & req & ext & Ht & Hf & Hw)]].
    + inversion Hr; subst. left. now eexists.
    + inversion Hr; subst. right. left. now eexists.
    + cbn [fst snd] in *. destruct (Hw eq_refl) as [-> Hcl]. subst t1.
      right. right. exists req, ext. split; [reflexivity|].
      rewrite forallb_forall in Hf, Hcl |- *. intros x Hx.
      now rewrite (Hf x Hx), (Hcl x Hx).
Qed.

End BridgeFacts.

Section BridgeClaims.

Import Api Bridge.

(** C9. The first thing the exec bridge does is the session-creation
    request: a POST to [<scheme>://<host>/containers/<id>/exec] of the
    cluster endpoint, with content type [application/json] and the JSON
    object whose AttachStdin, AttachStdout, AttachStderr and Tty are true and
    whose Cmd is the [cmd] parameter split at its commas; the pieces contain
    no comma and joined by commas give [cmd] back. *)
Theorem exec_creation_request (env : Env) (a : Api) (ws : WsConn) (sched : list Action) :
  (exists rest,
      fst (execContainer env a ws sched)
      = (EvPost (Http.Scheme (Dockerclient.URL (DockerClient (manager a))) ++ "://"
                 ++ Http.Host (Dockerclient.URL (DockerClient (manager a)))
                 ++ "/containers/" ++ Values_Get (wsQuery ws) "id" ++ "/exec")
                "application/json"
                (Some (Json.JObject
                         [ ("AttachStdin", Json.JBool true);
                           ("AttachStdout", Json.JBool true);
                           ("AttachStderr", Json.JBool true);
                           ("Tty", Json.JBool true);
                           ("Cmd", Json.JArray
                                     (map Json.JString
                                          (Strings.Split (Values_Get (wsQuery ws) "cmd")
                                                         ","%char)));
                           ("Detach", Json.JBool false) ]))
         :: rest)%list) /\
  Strings.Join (Strings.Split (Values_Get (wsQuery ws) "cmd") ","%char) ","
  = Values_Get (wsQuery ws) "cmd" /\
  Forall (fun piece => Strings.forall_bytes (fun c => negb (Ascii.eqb c ","%char)) piece = true)
         (Strings.Split (Values_Get (wsQuery ws) "cmd") ","%char).
Proof.
  split; [|split; [apply Join_Split | apply Split_no_sep]].
  unfold execContainer, exec_url. cbn [Dockerclient.Marshal].
  rewrite !append_assoc.
  destruct (http_Post env _ _ _) as [e | code [e | data]];
    try (eexists; reflexivity).
  destruct (hijack _ _ _ _ _ _ _ _ _ _ _) as [t1 [[e|]|]];
    try (eexists; reflexivity).
  destruct (http_Post env _ _ _); eexists; reflexivity.
Qed.

(** Behind C2: once the creation request got a response whose body could be
    read, the bridge goes on to the hijack whatever the status code and
    whatever the unmarshalling made of the body. *)
Lemma creation_response_reaches_hijack
      (env : Env) (a : Api) (ws : WsConn) (sched : list Action) (code : nat) (data : string) :
  (forall u ct b, http_Post env u ct b = PostResp code (inr data)) ->
  (forall mt p, http_NewRequest env mt p = None) ->
  (forall n ad, net_Dial env n ad = None) ->
  Dockerclient.TLSConfig (DockerClient (manager a)) = None ->
  exists u body req ext,
    execContainer env a ws sched
    = ((EvPost u "application/json" (Some body)
        :: EvDial None "tcp" (Http.Host (Dockerclient.URL (DockerClient (manager a))))
        :: EvSetKeepAlive true :: EvSetKeepAlivePeriod (30 * Second)
        :: EvDo req :: EvHijack :: ext)%list, InHijack) /\
    hrPath req = "/exec/" ++ Dockerclient.Id (fst (json_Unmarshal env data)) ++ "/start".
Proof.
  intros Hpost Hreq Hdial Htls.
  unfold execContainer. cbn [Dockerclient.Marshal]. rewrite Hpost.
  unfold hijack. cbn [Dockerclient.Marshal]. rewrite Hreq, Htls, Hdial.
  cbn [is_TCPConn].
  match goal with
  | |- context [run ?ar sched ?s0] =>
      destruct (run_held ar sched eq_refl s0) as (Hh & ext & Ht & Hf);
      [ repeat split | ];
      rewrite (held_not_returned _ Hh), Ht
  end.
  cbn [trace init app].
  do 4 eexists. split; reflexivity.
Qed.

(** C2 (the code departs from it).  A creation request answered with any
    status code and any body, unmarshalled to anything with or without an
    error, is followed by the dial and the hijack; with status 404 and a body
    that is no JSON the hijack is addressed to [/exec//start]. *)
Theorem failed_creation_still_hijacks
        (code : nat) (data : string) (info : Dockerclient.ContainerInfo)
        (unmarshalErr : option string) (sched : list Action) :
  In (EvDial None "tcp" "swarm:2375")
     (fst (execContainer (demo_env code data info unmarshalErr) (demo_api None) demo_ws sched)) /\
  In EvHijack
     (fst (execContainer (demo_env code data info unmarshalErr) (demo_api None) demo_ws sched)) /\
  snd (execContainer (demo_env code data info unmarshalErr) (demo_api None) demo_ws sched)
  = InHijack /\
  exists req,
    In (EvDo req)
       (fst (execContainer
               (demo_env 404 "No such container: abc123" zeroInfo
                         (Some "invalid character 'N' looking for beginning of value"))
               (demo_api None) demo_ws sched)) /\
    hrPath req = "/exec//start".
Proof.
  destruct (creation_response_reaches_hijack
              (demo_env code data info unmarshalErr) (demo_api None) demo_ws sched code data)
    as (u & body & req & ext & -> & _); try reflexivity.
  destruct (creation_response_reaches_hijack
              (demo_env 404 "No such container: abc123" zeroInfo
                        (Some "invalid character 'N' looking for beginning of value"))
              (demo_api None) demo_ws sched 404 "No such container: abc123")
    as (u' & body' & req' & ext' & -> & Hpath); try reflexivity.
  cbn [fst snd]. repeat split.
  - right. now left.
  - do 5 right. now left.
  - exists req'. split; [|exact Hpath]. do 4 right. now left.
Qed.

(** The part of C2 the code keeps: a creation request that fails on the
    network, or whose response body cannot be read, ends the bridge without a
    dial. *)
Lemma creation_error_no_hijack
      (env : Env) (a : Api) (ws : WsConn) (sched : list Action) :
  (forall u ct b, exists e,
      http_Post env u ct b = PostErr e \/ exists code, http_Post env u ct b = PostResp code (inl e)) ->
  exists u body e,
    execContainer env a ws sched
    = ([EvPost u "application/json" (Some body); EvLogError e]%list, Returned).
Proof.
  intros Hpost. unfold execContainer. cbn [Dockerclient.Marshal].
  match goal with
  | |- context [http_Post env ?u ?ct ?b] =>
      destruct (Hpost u ct b) as (e & [-> | (code & ->)])
  end; now do 3 eexists.
Qed.

(** C1 (the code departs from it).  With the websocket as [stdout], the
    calling goroutine of [hijack] waits on a channel that is nil: under every
    schedule it never returns, so the deferred [rwc.Close()] and
    [clientconn.Close()] never run; in particular, after the browser has
    closed the websocket, both copies have ended and the remote has closed
    too, the connection is still not released. *)
Theorem hijacked_socket_never_released
        (env : Env) (a : Api) (ws : WsConn) (conn : NetConn)
        (t : list Event) (sched : list Action) :
  (rwc_closes (run (mkArgs true (Some ws) (Some ws) (Some ws) None conn) sched (init t)) = 0%nat /\
   clientconn_closes (run (mkArgs true (Some ws) (Some ws) (Some ws) None conn) sched (init t))
   = 0%nat /\
   returned (run (mkArgs true (Some ws) (Some ws) (Some ws) None conn) sched (init t)) = None) /\
  (forallb (fun e => negb (close_event e)) (fst (execContainer env a ws sched)) = true /\
   (snd (execContainer env a ws sched) = InHijack \/
    ~ In EvHijack (fst (execContainer env a ws sched)))) /\
  (client_gone (run (mkArgs true (Some demo_ws) (Some demo_ws) (Some demo_ws) None
                            (TCPConn "swarm:2375")) demo_sched (init [])) = true /\
   remote_gone (run (mkArgs true (Some demo_ws) (Some demo_ws) (Some demo_ws) None
                            (TCPConn "swarm:2375")) demo_sched (init [])) = true /\
   g_stdout (run (mkArgs true (Some demo_ws) (Some demo_ws) (Some demo_ws) None
                         (TCPConn "swarm:2375")) demo_sched (init [])) = OutFinished /\
   g_stdin (run (mkArgs true (Some demo_ws) (Some demo_ws) (Some demo_ws) None
                        (TCPConn "swarm:2375")) demo_sched (init [])) = InFinished /\
   pc (run (mkArgs true (Some demo_ws) (Some demo_ws) (Some demo_ws) None
                   (TCPConn "swarm:2375")) demo_sched (init [])) = PcReceive /\
   rwc_closes (run (mkArgs true (Some demo_ws) (Some demo_ws) (Some demo_ws) None
                           (TCPConn "swarm:2375")) demo_sched (init [])) = 0%nat).
Proof.
  split; [|split].
  - destruct (run_held (mkArgs true (Some ws) (Some ws) (Some ws) None conn) sched
                       eq_refl (init t)) as ((Hpc & Hr & Hc) & _).
    { repeat split. }
    repeat split; try assumption.
    apply held_not_returned. repeat split; assumption.
  - destruct (execContainer_cases env a ws sched)
      as (u & body & [(e & ->) | [(e & ->) | (req & ext & -> & Hf)]]); cbn [fst snd].
    + split; [reflexivity|]. right. simpl. intuition discriminate.
    + split; [reflexivity|]. right. simpl. intuition discriminate.
    + split; [|now left].
      cbn [forallb close_event negb andb].
      rewrite forallb_app.
      replace (forallb (fun e => negb (close_event e))
                       (EvDo req :: EvHijack :: ext)%list)
        with (forallb (fun e => negb (close_event e)) ext) by reflexivity.
      rewrite forallb_forall in Hf.
      assert (Hext : forallb (fun e => negb (close_event e)) ext = true).
      { apply forallb_forall. intros x Hx.
        specialize (Hf x Hx). now apply andb_prop in Hf as [_ ->]. }
      rewrite Hext, andb_true_r.
      now destruct (Dockerclient.TLSConfig _).
  - vm_compute. repeat split.
Qed.

(** C3 (the code departs from it).  The resize request comes after the call
    of [hijack], which does not return once the connection is hijacked: the
    bridge never posts a request without a body, under any schedule; in the
    session of the example the remote output is relayed to the client and no
    resize to 80x24 has been sent. *)
Theorem resize_never_issued
        (env : Env) (a : Api) (ws : WsConn) (sched : list Action) (u ct : string) :
  ~ In (EvPost u ct None) (fst (execContainer env a ws sched)) /\
  In (EvCopyOut "hi")
     (fst (execContainer (demo_env 201 "(exec e1)" (Dockerclient.mkContainerInfo "e1") None)
                         (demo_api None) demo_ws demo_sched)) /\
  ~ In (EvPost (resize_url "http://swarm:2375" "e1" "80" "24") "application/json" None)
       (fst (execContainer (demo_env 201 "(exec e1)" (Dockerclient.mkContainerInfo "e1") None)
                           (demo_api None) demo_ws demo_sched)).
Proof.
  split; [|split].
  - destruct (execContainer_cases env a ws sched)
      as (u' & body & [(e & ->) | [(e & ->) | (req & ext & -> & Hf)]]); cbn [fst].
    + simpl. intuition discriminate.
    + simpl. intuition discriminate.
    + intros [E | [E | Hin]]; try discriminate.
      apply in_app_or in Hin as [Hin | [E | [E | Hin]]]; try discriminate.
      * destruct (Dockerclient.TLSConfig _); simpl in Hin; intuition discriminate.
      * rewrite forallb_forall in Hf. specialize (Hf _ Hin). discriminate.
  - vm_compute. do 6 right. now left.
  - vm_compute. intuition discriminate.
Qed.

(** C5, as the code has it.  After a successful handshake over a plain TCP
    dial (no TLS configuration) the trace of [hijack] starts with the dial,
    then keep-alive is switched on with a period of 30 seconds, then the
    upgrade request and the hijack, and only then relay events.  Over a TLS
    dial the connection is not a TCP connection value and the handshake
    follows the dial with no keep-alive call. *)
Theorem keepalive_on_plain_tcp
        (env : Env) (a : Api) (addr method path : string) (setRaw : bool)
        (in_ out err : option WsConn) (started : option unit) (sched : list Action) :
  In EvHijack (fst (hijack env a addr method path setRaw in_ out err started sched)) ->
  exists req ext,
    forallb relay_event ext = true /\
    fst (hijack env a addr method path setRaw in_ out err started sched)
    = match Dockerclient.TLSConfig (DockerClient (manager a)) with
      | None =>
          EvDial None "tcp" addr
          :: EvSetKeepAlive true :: EvSetKeepAlivePeriod 30000000000
          :: EvDo req :: EvHijack :: ext
      | Some cfg =>
          EvDial (Some cfg) "tcp" addr :: EvDo req :: EvHijack :: ext
      end%list.
Proof.
  intros Hin.
  pose proof (hijack_cases env a addr method path setRaw in_ out err started sched) as Hc.
  cbv zeta in Hc.
  destruct Hc as [(e & _ & Hr) | [(e & _ & _ & Hr) | (_ & _ & req & ext & Ht & Hf & _)]].
  - rewrite Hr in Hin. destruct Hin.
  - rewrite Hr in Hin. simpl in Hin. intuition discriminate.
  - exists req, ext. split; [assumption|]. rewrite Ht.
    now destruct (Dockerclient.TLSConfig _).
Qed.

End BridgeClaims.

(** ** The forwarder *)

Section ForwarderClaims.

Import Api Bridge.

(** C8. When the proxy target does not parse as a request URI, the forwarder
    handler answers with the error text under status 500 and relays nothing:
    the forwarder's [ServeHTTP] is not reached, so no upstream response is
    written. *)
Theorem swarmRedirect_parse_failure
        (env : Env) (dUrl : string) (fwd : Forward.Forwarder)
        (a : Api) (req : Http.Request) (st : ServeState) (err : string) :
  url_ParseRequestURI env dUrl = inl err ->
  Http.status (rw st) = None ->
  swarmRedirect env dUrl fwd a req st
  = mkServe (Http.Error (rw st) err Http.StatusInternalServerError) (relayed st) /\
  relayed (swarmRedirect env dUrl fwd a req st) = relayed st /\
  Http.status (rw (swarmRedirect env dUrl fwd a req st)) = Some 500%nat /\
  Http.body (rw (swarmRedirect env dUrl fwd a req st))
  = Http.body (rw st) ++ err ++ String (ascii_of_nat 10) EmptyString.
Proof.
  intros Hp Hs. unfold swarmRedirect. rewrite Hp.
  unfold with_rw, Http.Error, Http.Write, Http.WriteHeader. cbn.
  rewrite Hs. cbn. auto.
Qed.

(** C7. The transport is chosen from the cluster endpoint configuration when
    [Run] sets up the proxy: with a TLS configuration the target is
    [https://host] and the forwarder's round-tripper is a transport carrying
    that configuration, without one the target is [http://host] and the
    round-tripper is the default one.  A forwarded request is relayed with
    the round-tripper chosen then, whatever the receiver holds when the
    request is served.  A hijack dials with [tls.Dial] and the configuration
    when there is one and with [net.Dial] otherwise. *)
Theorem transport_selected_at_startup
        (env : Env) (a a' : Api) (req : Http.Request) (st : ServeState) (u : Http.URL)
        (addr method path : string) (setRaw : bool) (in_ out err : option WsConn)
        (started : option unit) (sched : list Action) :
  url_ParseRequestURI env (Run_dUrl (DockerClient (manager a))) = inr u ->
  http_NewRequest env method path = None ->
  Run_dUrl (DockerClient (manager a))
  = match Dockerclient.TLSConfig (DockerClient (manager a)) with
    | Some _ => "https://"
    | None => "http://"
    end ++ Http.Host (Dockerclient.URL (DockerClient (manager a))) /\
  Forward.transport_of (Run_fwd (DockerClient (manager a)))
  = match Dockerclient.TLSConfig (DockerClient (manager a)) with
    | Some cfg => Forward.Transport cfg
    | None => Forward.DefaultTransport
    end /\
  relayed (swarmRedirect env (Run_dUrl (DockerClient (manager a)))
                         (Run_fwd (DockerClient (manager a))) a' req st)
  = (relayed st
     ++ [ (match Dockerclient.TLSConfig (DockerClient (manager a)) with
           | Some cfg => Forward.Transport cfg
           | None => Forward.DefaultTransport
           end,
           Forward.mkOutReq (Http.Method req) (Http.Scheme u) (Http.Host u)
                            (Http.RequestURI req)) ])%list /\
  exists rest,
    fst (hijack env a addr method path setRaw in_ out err started sched)
    = (EvDial (Dockerclient.TLSConfig (DockerClient (manager a))) "tcp" addr :: rest)%list.
Proof.
  intros Hp Hn.
  assert (Ht : Forward.transport_of (Run_fwd (DockerClient (manager a)))
               = match Dockerclient.TLSConfig (DockerClient (manager a)) with
                 | Some cfg => Forward.Transport cfg
                 | None => Forward.DefaultTransport
                 end).
  { unfold Run_fwd. now destruct (Dockerclient.TLSConfig _). }
  split; [reflexivity|]. split; [exact Ht|]. split.
  - unfold swarmRedirect. rewrite Hp. unfold Forwarder_ServeHTTP.
    cbn [relayed]. now rewrite Ht.
  - pose proof (hijack_cases env a addr method path setRaw in_ out err started sched) as Hc.
    cbv zeta in Hc.
    destruct Hc as [(e & He & _) | [(e & _ & _ & Hr) | (_ & _ & rq & ext & Hr & _)]].
    + congruence.
    + rewrite Hr. now eexists.
    + rewrite Hr. now eexists.
Qed.

End ForwarderClaims.

(** ** Instances *)

Section Instances.

Import Mux Api Bridge.

(** The alias property at [GET /images/ubuntu/json] and version 1.18, with
    the table visited in reverse order. *)
Lemma swarm_alias_same_handler_witness :
  Permutation (rev (range_m (m demo_handler))) (range_m (m demo_handler)) /\
  is_version "1.18" = true /\
  Route_Match (mkRoute (Path (version_prefix ++ "/images/{name:.*}/json")) ["GET"]%list
                       (wrap demo_handler))
              "GET" "/v1.18/images/ubuntu/json" = true /\
  Router_Match (swarmRouter (rev (range_m (m demo_handler)))) "GET" "/images/ubuntu/json"
  = Some (wrap demo_handler) /\
  Router_Match (swarmRouter (rev (range_m (m demo_handler)))) "GET" "/v1.18/images/ubuntu/json"
  = Some (wrap demo_handler).
Proof.
  split; [apply Permutation_sym, Permutation_rev|].
  split; [reflexivity|].
  apply (swarm_alias_same_handler demo_handler (rev (range_m (m demo_handler)))
           "GET" "/images/{name:.*}/json" demo_handler "/images/ubuntu/json" "1.18").
  - apply Permutation_sym, Permutation_rev.
  - apply -> in_rev. simpl. do 10 right. left. reflexivity.
  - reflexivity.
  - reflexivity.
Defined.

(** CORS enabled, [GET /images/json]: the response carries the headers. *)
Lemma cors_headers_before_handler_witness :
  Router_Match (swarmRouter (range_m (m (swarmRedirect (demo_env 200 EmptyString zeroInfo None)
                                                      "http://swarm:2375" (Forward.New []%list)))))
               "GET" "/images/json"
  = Some (wrap (swarmRedirect (demo_env 200 EmptyString zeroInfo None)
                              "http://swarm:2375" (Forward.New []%list))) /\
  incl [ ("Access-Control-Allow-Origin", "*");
         ("Access-Control-Allow-Headers", "Origin, X-Requested-With, Content-Type, Accept");
         ("Access-Control-Allow-Methods", "GET, POST, DELETE, PUT, OPTIONS") ]%list
       (Http.header
          (rw (wrap (swarmRedirect (demo_env 200 EmptyString zeroInfo None)
                                   "http://swarm:2375" (Forward.New []%list))
                    (demo_api None) demo_req demo_state))).
Proof.
  split; [reflexivity|].
  apply (cors_headers_before_handler
           (demo_env 200 EmptyString zeroInfo None) "http://swarm:2375" (Forward.New []%list)
           (demo_api None)
           (range_m (m (swarmRedirect (demo_env 200 EmptyString zeroInfo None)
                                      "http://swarm:2375" (Forward.New []%list))))
           "GET" "/images/json"
           (wrap (swarmRedirect (demo_env 200 EmptyString zeroInfo None)
                                "http://swarm:2375" (Forward.New []%list)))
           demo_req demo_state).
  - apply Permutation_refl.
  - reflexivity.
Defined.

(** [/v1.19/info] matches a versioned route and goes to the file server. *)
Lemma other_versions_not_dispatched_to_swarm_witness :
  In ("GET", "/info", demo_handler) (range_m (m demo_handler)) /\
  is_version "1.19" = true /\
  Route_Match (mkRoute (Path (version_prefix ++ "/info")) ["GET"]%list (wrap demo_handler))
              "GET" "/v1.19/info" = true /\
  globalMux_Handler (fun p => p) "/v1.19/info" = Some (FileServer "static") /\
  globalMux_Handler (fun p => p) "/v1.19/info" <> Some swarmAuthRouter.
Proof.
  split; [simpl; do 2 right; left; reflexivity|].
  split; [reflexivity|].
  apply (other_versions_not_dispatched_to_swarm
           (fun p => p) demo_handler "GET" "/info" demo_handler "1.19" "/info").
  - simpl. do 2 right. left. reflexivity.
  - reflexivity.
  - reflexivity.
  - discriminate.
  - discriminate.
Defined.

(** A host with a percent sign: status 500, nothing relayed. *)
Lemma swarmRedirect_parse_failure_witness :
  url_ParseRequestURI (demo_env 200 EmptyString zeroInfo None) (Run_dUrl bad_client)
  = inl "hexadecimal escape in host" /\
  relayed (swarmRedirect (demo_env 200 EmptyString zeroInfo None) (Run_dUrl bad_client)
                         (Run_fwd bad_client) (demo_api None) demo_req demo_state)
  = []%list /\
  Http.status (rw (swarmRedirect (demo_env 200 EmptyString zeroInfo None) (Run_dUrl bad_client)
                                 (Run_fwd bad_client) (demo_api None) demo_req demo_state))
  = Some 500%nat.
Proof.
  split; [reflexivity|].
  destruct (swarmRedirect_parse_failure
              (demo_env 200 EmptyString zeroInfo None) (Run_dUrl bad_client)
              (Run_fwd bad_client) (demo_api None) demo_req demo_state
              "hexadecimal escape in host" eq_refl eq_refl) as (_ & Hr & Hs & _).
  split; [exact Hr | exact Hs].
Defined.

(** A TLS endpoint: https target, TLS transport, TLS dial; the receiver at
    request time holding no TLS configuration changes nothing. *)
Lemma transport_selected_at_startup_witness :
  Run_dUrl (DockerClient (manager (demo_api (Some demo_tls)))) = "https://swarm:2375" /\
  Forward.transport_of (Run_fwd (DockerClient (manager (demo_api (Some demo_tls)))))
  = Forward.Transport demo_tls /\
  relayed (swarmRedirect (demo_env 200 EmptyString zeroInfo None)
                         (Run_dUrl (DockerClient (manager (demo_api (Some demo_tls)))))
                         (Run_fwd (DockerClient (manager (demo_api (Some demo_tls)))))
                         (demo_api None) demo_req demo_state)
  = [ (Forward.Transport demo_tls,
       Forward.mkOutReq "GET" "https" "swarm:2375" "/images/json") ]%list /\
  exists rest,
    fst (hijack (demo_env 200 EmptyString zeroInfo None) (demo_api (Some demo_tls))
                "swarm:2375" "POST" "/exec/e1/start" true
                (Some demo_ws) (Some demo_ws) (Some demo_ws) None demo_sched)
    = (EvDial (Some demo_tls) "tcp" "swarm:2375" :: rest)%list.
Proof.
  apply (transport_selected_at_startup
           (demo_env 200 EmptyString zeroInfo None) (demo_api (Some demo_tls)) (demo_api None)
           demo_req demo_state (Http.mkURL "https" "swarm:2375" EmptyString)
           "swarm:2375" "POST" "/exec/e1/start" true
           (Some demo_ws) (Some demo_ws) (Some demo_ws) None demo_sched).
  - reflexivity.
  - reflexivity.
Defined.

(** A plain TCP session: the handshake happened, keep-alive precedes it. *)
Lemma keepalive_on_plain_tcp_witness :
  In EvHijack
     (fst (hijack (demo_env 200 EmptyString zeroInfo None) (demo_api None)
                  "swarm:2375" "POST" "/exec/e1/start" true
                  (Some demo_ws) (Some demo_ws) (Some demo_ws) None demo_sched)) /\
  exists req ext,
    forallb relay_event ext = true /\
    fst (hijack (demo_env 200 EmptyString zeroInfo None) (demo_api None)
                "swarm:2375" "POST" "/exec/e1/start" true
                (Some demo_ws) (Some demo_ws) (Some demo_ws) None demo_sched)
    = (EvDial None "tcp" "swarm:2375"
       :: EvSetKeepAlive true :: EvSetKeepAlivePeriod 30000000000
       :: EvDo req :: EvHijack :: ext)%list.
Proof.
  assert (H : In EvHijack
                 (fst (hijack (demo_env 200 EmptyString zeroInfo None) (demo_api None)
                              "swarm:2375" "POST" "/exec/e1/start" true
                              (Some demo_ws) (Some demo_ws) (Some demo_ws) None demo_sched))).
  { vm_compute. do 4 right. left. reflexivity. }
  split; [exact H|].
  exact (keepalive_on_plain_tcp
           (demo_env 200 EmptyString zeroInfo None) (demo_api None)
           "swarm:2375" "POST" "/exec/e1/start" true
           (Some demo_ws) (Some demo_ws) (Some demo_ws) None demo_sched H).
Defined.

(** C5 as stated fails over TLS: the handshake succeeds and output is
    relayed, but no keep-alive call was made on the connection. *)
Lemma tls_hijack_without_keepalive :
  In EvHijack
     (fst (hijack (demo_env 200 EmptyString zeroInfo None) (demo_api (Some demo_tls))
                  "swarm:2375" "POST" "/exec/e1/start" true
                  (Some demo_ws) (Some demo_ws) (Some demo_ws) None demo_sched)) /\
  In (EvCopyOut "hi")
     (fst (hijack (demo_env 200 EmptyString zeroInfo None) (demo_api (Some demo_tls))
                  "swarm:2375" "POST" "/exec/e1/start" true
                  (Some demo_ws) (Some demo_ws) (Some demo_ws) None demo_sched)) /\
  (forall on, ~ In (EvSetKeepAlive on)
                   (fst (hijack (demo_env 200 EmptyString zeroInfo None)
                                (demo_api (Some demo_tls))
                                "swarm:2375" "POST" "/exec/e1/start" true
                                (Some demo_ws) (Some demo_ws) (Some demo_ws) None demo_sched))) /\
  (forall d, ~ In (EvSetKeepAlivePeriod d)
                  (fst (hijack (demo_env 200 EmptyString zeroInfo None)
                               (demo_api (Some demo_tls))
                               "swarm:2375" "POST" "/exec/e1/start" true
                               (Some demo_ws) (Some demo_ws) (Some demo_ws) None demo_sched))).
Proof.
  repeat split.
  - vm_compute. do 2 right. left. reflexivity.
  - vm_compute. do 3 right. left. reflexivity.
  - intros on. vm_compute. intuition discriminate.
  - intros d. vm_compute. intuition discriminate.
Qed.

End Instances.

(* ------------------------------------------------------------------ *)
(** * Further properties *)

(** ** The relay: releases and the half-close *)

Section RelayAccounting.

Import Api Bridge Measure.

Ltac split_step H :=
  repeat match type of H with
         | context [match ?x with _ => _ end] => destruct x eqn:?
         | context [if ?x then _ else _] => destruct x eqn:?
         end.

Lemma count_ev_snoc (p : Event -> bool) (l : list Event) (e : Event) :
  count_ev p (l ++ [e])%list = (count_ev p l + (if p e then 1 else 0))%nat.
Proof.
  unfold count_ev. rewrite filter_app, length_app. simpl.
  now destruct (p e).
Qed.

Lemma count_ev_app (p : Event -> bool) (l1 l2 : list Event) :
  count_ev p (l1 ++ l2)%list = (count_ev p l1 + count_ev p l2)%nat.
Proof. unfold count_ev. now rewrite filter_app, length_app. Qed.

Lemma step_accounted (ar : Args) (act : Action) (s s' : Relay) :
  accounted ar s -> step ar act s = Some s' -> accounted ar s'.
Proof.
  intros (Hr & Hc & Hpc) H. unfold accounted.
  destruct act; cbn [step] in H;
    unfold step_main, step_stdout, step_stdin in H;
    split_step H; try discriminate H;
    repeat match goal with E : pc s = _ |- _ => rewrite E in * end;
    inversion H; subst s'; unfold count_ev in *; cbn in *;
    rewrite ?filter_app, ?length_app; cbn;
    intuition (try lia; try congruence).
Qed.

Lemma run_accounted (ar : Args) (sched : list Action) :
  forall s, accounted ar s -> accounted ar (run ar sched s).
Proof.
  induction sched as [|act sched IH]; intros s Hs; simpl; [assumption|].
  destruct (step ar act s) as [s'|] eqn:E; [|now apply IH].
  apply IH. eapply step_accounted; eauto.
Qed.

Lemma init_accounted (ar : Args) (t : list Event) :
  count_ev is_rwc_close t = 0%nat -> count_ev is_clientconn_close t = 0%nat ->
  accounted ar (init t).
Proof. intros H1 H2. unfold accounted. simpl. auto. Qed.

End RelayAccounting.

Section HijackReleases.

Import Api Bridge Measure.


(** Past the dial, [hijack] is the relay run from the trace of its setup. *)
Lemma hijack_unfold
      (env : Env) (a : Api) (addr method path : string) (setRaw : bool)
      (in_ out err : option WsConn) (started : option unit) (sched : list Action) :
  http_NewRequest env method path = None ->
  match Dockerclient.TLSConfig (DockerClient (manager a)) with
  | None => net_Dial env "tcp" addr
  | Some cfg => tls_Dial env "tcp" addr cfg
  end = None ->
  exists req,
    hijack env a addr method path setRaw in_ out err started sched
    = (trace (run (mkArgs setRaw in_ out err started
                          match Dockerclient.TLSConfig (DockerClient (manager a)) with
                          | None => TCPConn addr
                          | Some cfg => TLSConn addr cfg
                          end)
                  sched
                  (init (EvDial (Dockerclient.TLSConfig (DockerClient (manager a))) "tcp" addr
                         :: match Dockerclient.TLSConfig (DockerClient (manager a)) with
                            | None => [EvSetKeepAlive true;
                                       EvSetKeepAlivePeriod (30 * Second)]
                            | Some _ => []
                            end ++ [EvDo req; EvHijack])%list)),
       returned (run (mkArgs setRaw in_ out err started
                             match Dockerclient.TLSConfig (DockerClient (manager a)) with
                             | None => TCPConn addr
                             | Some cfg => TLSConn addr cfg
                             end)
                     sched
                     (init (EvDial (Dockerclient.TLSConfig (DockerClient (manager a))) "tcp" addr
                            :: match Dockerclient.TLSConfig (DockerClient (manager a)) with
                               | None => [EvSetKeepAlive true;
                                          EvSetKeepAlivePeriod (30 * Second)]
                               | Some _ => []
                               end ++ [EvDo req; EvHijack])%list))).
Proof.
  intros Hn Hd. unfold hijack. cbn [Dockerclient.Marshal]. rewrite Hn.
  destruct (Dockerclient.TLSConfig (DockerClient (manager a))) as [cfg|];
    rewrite Hd; cbn [is_TCPConn app]; eexists; reflexivity.
Qed.

Lemma hijack_relay_accounted
      (env : Env) (a : Api) (addr method path : string) (setRaw : bool)
      (in_ out err : option WsConn) (started : option unit) (sched : list Action) :
  http_NewRequest env method path = None ->
  match Dockerclient.TLSConfig (DockerClient (manager a)) with
  | None => net_Dial env "tcp" addr
  | Some cfg => tls_Dial env "tcp" addr cfg
  end = None ->
  exists s,
    hijack env a addr method path setRaw in_ out err started sched = (trace s, returned s) /\
    accounted (mkArgs setRaw in_ out err started
                      match Dockerclient.TLSConfig (DockerClient (manager a)) with
                      | None => TCPConn addr
                      | Some cfg => TLSConn addr cfg
                      end) s.
Proof.
  intros Hn Hd.
  destruct (hijack_unfold env a addr method path setRaw in_ out err started sched Hn Hd)
    as [req ->].
  eexists. split; [reflexivity|].
  apply run_accounted, init_accounted;
    now destruct (Dockerclient.TLSConfig _).
Qed.

Lemma accounted_bounds (ar : Args) (s : Relay) :
  accounted ar s ->
  (rwc_closes s <= 1)%nat /\ (clientconn_closes s <= rwc_closes s)%nat /\
  match returned s with
  | Some None => rwc_closes s = 1%nat /\ clientconn_closes s = 1%nat /\ wants_output ar = false
  | Some (Some _) => False
  | None => clientconn_closes s = 0%nat
  end.
Proof.
  intros (_ & _ & Hpc). unfold returned.
  destruct (pc s) as [| | | | |e|e|e];
    try destruct e; intuition (try lia; try congruence).
Qed.

(** X1. [hijack] never closes the hijacked connection or the client
    connection twice, and never the client connection before the hijacked
    one.  When it has returned nil, both have been closed exactly once and
    [stdout] and [stderr] were nil; when it has returned an error or is still
    running, the client connection has not been closed. *)
Theorem hijack_releases_at_most_once
        (env : Env) (a : Api) (addr method path : string) (setRaw : bool)
        (in_ out err : option WsConn) (started : option unit) (sched : list Action) :
  (count_ev is_rwc_close
            (fst (hijack env a addr method path setRaw in_ out err started sched)) <= 1)%nat /\
  (count_ev is_clientconn_close
            (fst (hijack env a addr method path setRaw in_ out err started sched))
   <= count_ev is_rwc_close
               (fst (hijack env a addr method path setRaw in_ out err started sched)))%nat /\
  match snd (hijack env a addr method path setRaw in_ out err started sched) with
  | Some None =>
      count_ev is_rwc_close
               (fst (hijack env a addr method path setRaw in_ out err started sched)) = 1%nat /\
      count_ev is_clientconn_close
               (fst (hijack env a addr method path setRaw in_ out err started sched)) = 1%nat /\
      out = None /\ err = None
  | _ =>
      count_ev is_clientconn_close
               (fst (hijack env a addr method path setRaw in_ out err started sched)) = 0%nat
  end.
Proof.
  pose proof (hijack_cases env a addr method path setRaw in_ out err started sched) as Hc.
  cbv zeta in Hc.
  destruct Hc as [(e & _ & ->) | [(e & _ & _ & ->) | (Hn & Hd & _)]].
  - cbn. auto.
  - cbn. auto.
  - destruct (hijack_relay_accounted env a addr method path setRaw in_ out err started sched
                                     Hn Hd) as (s & -> & Hacc).
    cbn [fst snd].
    pose proof (accounted_bounds _ _ Hacc) as (Hb1 & Hb2 & Hret).
    destruct Hacc as (-> & -> & _).
    split; [assumption|]. split; [assumption|].
    destruct (returned _) as [[e|]|]; try contradiction; try assumption.
    destruct Hret as (-> & -> & Hw). repeat split.
    + unfold wants_output in Hw. cbn in Hw. now destruct out, err.
    + unfold wants_output in Hw. cbn in Hw. now destruct out, err.
Qed.





End HijackReleases.

Section HijackErrors.

Import Api Bridge Measure.

(** X3. [hijack] returns an error only from its setup: either the request
    could not be built, and then nothing was dialed, or the dial failed, and
    then the dial is all that happened.  Once the connection is hijacked no
    error is ever returned. *)
Theorem hijack_error_only_from_setup
        (env : Env) (a : Api) (addr method path : string) (setRaw : bool)
        (in_ out err : option WsConn) (started : option unit) (sched : list Action)
        (e : string) :
  snd (hijack env a addr method path setRaw in_ out err started sched) = Some (Some e) ->
  (http_NewRequest env method path = Some e /\
   fst (hijack env a addr method path setRaw in_ out err started sched) = []%list) \/
  (http_NewRequest env method path = None /\
   match Dockerclient.TLSConfig (DockerClient (manager a)) with
   | None => net_Dial env "tcp" addr
   | Some cfg => tls_Dial env "tcp" addr cfg
   end = Some e /\
   fst (hijack env a addr method path setRaw in_ out err started sched)
   = [EvDial (Dockerclient.TLSConfig (DockerClient (manager a))) "tcp" addr]%list).
Proof.
  intros Hs.
  pose proof (hijack_cases env a addr method path setRaw in_ out err started sched) as Hc.
  cbv zeta in Hc.
  destruct Hc as [(e0 & Hn & Hr) | [(e0 & Hn & Hd & Hr) | (Hn & Hd & _)]].
  - rewrite Hr in Hs |- *. inversion Hs; subst. now left.
  - rewrite Hr in Hs |- *. inversion Hs; subst. now right.
  - exfalso.
    destruct (hijack_relay_accounted env a addr method path setRaw in_ out err started sched
                                     Hn Hd) as (s & E & Hacc).
    rewrite E in Hs. cbn [snd] in Hs.
    pose proof (accounted_bounds _ _ Hacc) as (_ & _ & Hret).
    now rewrite Hs in Hret.
Qed.

End HijackErrors.

Section HalfClose.

Import Api Bridge Measure.







End HalfClose.

(** ** The exec bridge: returns and the command vector *)

Section BridgeReturns.

Import Api Bridge Measure.

(** X5. [execContainer] returns only after logging an error: either right
    after the creation request (the request failed, its body could not be
    read, or the upgrade request could not be built), or after a failed
    dial.  In both cases it has posted exactly once and has hijacked no
    connection. *)
Theorem execContainer_returns_only_on_error
        (env : Env) (a : Api) (ws : WsConn) (sched : list Action) :
  snd (execContainer env a ws sched) = Returned ->
  count_ev is_post (fst (execContainer env a ws sched)) = 1%nat /\
  ~ In EvHijack (fst (execContainer env a ws sched)) /\
  exists u body e,
    fst (execContainer env a ws sched)
    = [EvPost u "application/json" (Some body); EvLogError e]%list \/
    fst (execContainer env a ws sched)
    = [EvPost u "application/json" (Some body);
       EvDial (Dockerclient.TLSConfig (DockerClient (manager a))) "tcp"
              (Http.Host (Dockerclient.URL (DockerClient (manager a))));
       EvLogError e]%list.
Proof.
  intros Hr.
  destruct (execContainer_cases env a ws sched)
    as (u & body & [(e & E) | [(e & E) | (req & ext & E & _)]]);
    rewrite E in Hr |- *; cbn [fst snd] in *.
  - split; [reflexivity|]. split; [simpl; intuition discriminate|].
    exists u, body, e. now left.
  - split; [reflexivity|]. split; [simpl; intuition discriminate|].
    exists u, body, e. now right.
  - discriminate Hr.
Qed.


End BridgeReturns.

(** ** The Docker Hub webhook *)

Section WebhookFacts.

Import Handlers.

Lemma Index_cons (c : ascii) (s sep : string) :
  Index (String c s) sep
  = if String.prefix sep (String c s) then Some 0%nat else option_map S (Index s sep).
Proof. reflexivity. Qed.

Lemma Index_found (s sep : string) (n : nat) :
  Index s sep = Some n -> exists a b, s = a ++ sep ++ b /\ String.length a = n.
Proof.
  revert n. induction s as [|c s IH]; intros n H.
  - destruct sep; simpl in H; [|discriminate].
    inversion H; subst. now exists EmptyString, EmptyString.
  - rewrite Index_cons in H.
    destruct (String.prefix sep (String c s)) eqn:P.
    + inversion H; subst. destruct (prefix_inv _ _ P) as [r E].
      exists EmptyString, r. split; [exact E | reflexivity].
    + destruct (Index s sep) as [k|]; [|discriminate]. inversion H; subst.
      destruct (IH k eq_refl) as (a & b & -> & Hl).
      exists (String c a), b. simpl. now rewrite Hl.
Qed.

Lemma Index_missing (s sep : string) :
  Index s sep = None -> forall a b, s <> a ++ sep ++ b.
Proof.
  induction s as [|c s IH]; intros H a b E.
  - destruct sep; simpl in H; [discriminate|].
    destruct a; discriminate E.
  - rewrite Index_cons in H.
    destruct (String.prefix sep (String c s)) eqn:P; [discriminate|].
    destruct (Index s sep) eqn:I; [discriminate|].
    destruct a as [|d a].
    + simpl in E. rewrite E, prefix_app in P. discriminate.
    + inversion E. subst. now apply (IH eq_refl a b).
Qed.

(** X7. For a known key and a decoded body, [hubWebhook] accepts the
    notification, leaving the response as it is, exactly when the image of
    the key occurs somewhere in the repository name; otherwise it answers 404
    with [not found].  So a key for [shipyard] also accepts [evil/shipyard2],
    and a key whose image is empty accepts every repository. *)
Theorem hubWebhook_accepts_iff_substring
        (env : HookEnv) (w : Http.ResponseWriter) (r : HookRequest)
        (key : WebhookKey) (repoName : string) :
  manager_WebhookKey env (Vars_get (hookVars r) "id") = inr key ->
  decode_Webhook env (hookBody r) = inr (Some repoName) ->
  (hubWebhook env w r = Some w /\ exists a b, repoName = a ++ Image key ++ b) \/
  (hubWebhook env w r = Some (Http.Error w "not found" StatusNotFound) /\
   forall a b, repoName <> a ++ Image key ++ b).
Proof.
  intros Hk Hd. unfold hubWebhook. cbv zeta. rewrite Hk, Hd.
  destruct (Index repoName (Image key)) as [n|] eqn:I.
  - left. split; [reflexivity|].
    destruct (Index_found _ _ _ I) as (a & b & E & _). now exists a, b.
  - right. split; [reflexivity|]. now apply Index_missing.
Qed.

End WebhookFacts.

(** ** Dispatch in the swarm router *)

Section SwarmDispatch.

Import Mux Api.

Variable sr : HandlerFunc.

Lemma var_match_inv (f : ascii -> bool) (k : string -> bool) (s : string) :
  forall n, var_match f n k s = true ->
            exists v r, s = v ++ r /\ Strings.forall_bytes f v = true /\
                        (n <= String.length v)%nat /\ k r = true.
Proof.
  induction s as [|c s IH]; intros n H; simpl in H.
  - rewrite orb_false_r in H. destruct n; [|discriminate].
    exists EmptyString, EmptyString. auto.
  - apply orb_prop in H as [H | H].
    + destruct n; [|discriminate].
      exists EmptyString, (String c s). auto.
    + apply andb_prop in H as [Hc H].
      destruct (IH _ H) as (v & r & -> & Hv & Hn & Hk).
      exists (String c v), r. simpl. rewrite Hc, Hv. repeat split; auto. lia.
Qed.

(** X8. The route registered under the version prefix accepts nothing but
    the paths of the bare route behind [/v] and a version: a path it matches
    splits into [/v], one or more digits and dots, and a path the bare route
    matches. *)
Theorem versioned_route_inversion
        {H : Type} (method mt route path : string) (hd : H) :
  Path route <> None ->
  Route_Match (mkRoute (Path (version_prefix ++ route)) [mt] hd) method path = true ->
  exists ver rest,
    path = "/v" ++ ver ++ rest /\ is_version ver = true /\
    Route_Match (mkRoute (Path route) [mt] hd) method rest = true.
Proof.
  intros Hp Hm. unfold Route_Match in *. cbn [regexp methods] in *.
  destruct (Path route) as [segs|] eqn:E; [|congruence].
  rewrite (Path_versioned _ _ E) in Hm.
  apply andb_prop in Hm as [Hs Hmt].
  cbn [match_segs] in Hs.
  destruct (Strings.strip "/v" path) as [p'|] eqn:S; [|discriminate].
  apply strip_inv in S. subst path.
  apply var_match_inv in Hs as (ver & rest & -> & Hv & Hn & Hk).
  exists ver, rest. split; [reflexivity|]. split.
  - unfold is_version. rewrite Hv. destruct ver; simpl in *; [lia | reflexivity].
  - now rewrite Hk, Hmt.
Qed.

(** X15. A route with one catch-all variable, [raw{name:.*}tail], matches
    exactly the paths [raw ++ name ++ tail] whose name has no newline: the
    name may be empty and may contain slashes, as image names do. *)
Theorem catch_all_accepts_slashes
        {H : Type} (route raw var tail method path : string) (hd : H) :
  Path route = Some [Lit raw; Var var ReAnyStar; Lit tail]%list ->
  Route_Match (mkRoute (Path route) [method] hd) method path = true <->
  exists name,
    path = raw ++ name ++ tail /\
    Strings.forall_bytes (fun c => negb (Ascii.eqb c (ascii_of_nat 10))) name = true.
Proof.
  intros Hp. unfold Route_Match. cbn [regexp methods]. rewrite Hp.
  cbn [match_segs min_len existsb]. rewrite String.eqb_refl. cbn [orb].
  rewrite andb_true_r. split.
  - intros Hm.
    destruct (Strings.strip raw path) as [s|] eqn:S; [|discriminate].
    apply strip_inv in S. subst path.
    apply var_match_inv in Hm as (name & r & -> & Hn & _ & Hk).
    destruct (Strings.strip tail r) as [r'|] eqn:S'; [|discriminate].
    apply strip_inv in S'. apply String.eqb_eq in Hk. subst r' r.
    rewrite append_nil_r. now exists name.
  - intros (name & -> & Hn).
    rewrite strip_app. apply var_match_app; [exact Hn | lia |].
    rewrite <- (append_nil_r tail) at 2. rewrite strip_app. reflexivity.
Qed.

Lemma route_method {H : Type} (re : option (list Seg)) (mt method path : string) (hd : H) :
  Route_Match (mkRoute re [mt] hd) method path = true -> method = mt.
Proof.
  unfold Route_Match. cbn [regexp methods]. destruct re; [|discriminate].
  intros Hm. apply andb_prop in Hm as [_ Hm]. simpl in Hm.
  rewrite orb_false_r in Hm. now apply String.eqb_eq.
Qed.

(** The rows of the table, by method. *)
Lemma m_methods (method route : string) (fct : HandlerFunc) :
  In (method, route, fct) (range_m (m sr)) ->
  In method ["GET"; "POST"; "DELETE"; "OPTIONS"]%list /\
  (method = "OPTIONS" -> route = EmptyString).
Proof.
  unfold range_m, m. simpl. intros Hin.
  repeat (destruct Hin as [Hin|Hin];
          [ inversion Hin; subst; split; [simpl; tauto | intros; first [reflexivity | discriminate]]
          | ]).
  contradiction.
Qed.

Lemma swarm_match_row (order : list (string * string * HandlerFunc))
      (method path : string) (hd : HandlerFunc) :
  Permutation order (range_m (m sr)) ->
  Router_Match (swarmRouter order) method path = Some hd ->
  exists route,
    In (method, route, sr) (range_m (m sr)) /\
    (Route_Match (mkRoute (Path (version_prefix ++ route)) [method] (wrap sr)) method path = true \/
     Route_Match (mkRoute (Path route) [method] (wrap sr)) method path = true).
Proof.
  intros Hp Hm.
  apply find_some_handler in Hm as (r & Hin & Hr & _).
  apply in_swarmRouter in Hin as (mt & route & fct & Hin & Hor).
  apply (Permutation_in _ Hp) in Hin.
  pose proof (m_all_swarmRedirect sr _ _ _ Hin) as ->.
  assert (method = mt) as -> by (destruct Hor as [-> | ->]; eapply route_method; eauto).
  exists route. split; [assumption|].
  destruct Hor as [-> | ->]; auto.
Qed.

(** X9. Whatever the order in which the rows of the table were visited, the
    swarm router answers a request the same way: it dispatches it, to the
    wrapped [swarmRedirect], exactly when some route registered for a row
    of the table matches it, and not at all otherwise. *)
Theorem swarm_dispatch_order_independent
        (order1 order2 : list (string * string * HandlerFunc)) (method path : string) :
  Permutation order1 (range_m (m sr)) ->
  Permutation order2 (range_m (m sr)) ->
  Router_Match (swarmRouter order1) method path
  = Router_Match (swarmRouter order2) method path /\
  Router_Match (swarmRouter order1) method path
  = if existsb (fun e => existsb (fun r => Route_Match r method path) (routes_of e))
               (range_m (m sr))
    then Some (wrap sr) else None.
Proof.
  assert (Hchar : forall order,
             Permutation order (range_m (m sr)) ->
             Router_Match (swarmRouter order) method path
             = if existsb (fun e => existsb (fun r => Route_Match r method path) (routes_of e))
                          (range_m (m sr))
               then Some (wrap sr) else None).
  { intros order Hp.
    destruct (existsb _ (range_m (m sr))) eqn:Ex.
    - apply existsb_exists in Ex as (e & Hin & He).
      apply existsb_exists in He as (r & Hr & Hm).
      assert (Hin' : In r (swarmRouter order)).
      { rewrite swarmRouter_routes. apply in_flat_map. exists e. split; [|assumption].
        eapply Permutation_in; [apply Permutation_sym; exact Hp | assumption]. }
      destruct (find_exists _ _ _ _ Hin' Hm) as [hd Hhd].
      rewrite Hhd. f_equal. eapply swarmRouter_handler; eauto.
    - destruct (Router_Match (swarmRouter order) method path) as [hd|] eqn:M; [|reflexivity].
      exfalso.
      apply find_some_handler in M as (r & Hin & Hr & _).
      rewrite swarmRouter_routes in Hin. apply in_flat_map in Hin as (e & He & Hre).
      apply (Permutation_in _ Hp) in He.
      assert (Ex' : existsb (fun e => existsb (fun r => Route_Match r method path)
                                              (routes_of e))
                            (range_m (m sr)) = true).
      { apply existsb_exists. exists e. split; [assumption|].
        apply existsb_exists. now exists r. }
      congruence. }
  intros H1 H2. split; [|now apply Hchar].
  now rewrite (Hchar order1 H1), (Hchar order2 H2).
Qed.

(** X10. The swarm router dispatches only GET, POST, DELETE and OPTIONS
    requests: a PUT, HEAD or PATCH request matches no route, whatever its
    path. *)
Theorem swarm_dispatch_methods
        (order : list (string * string * HandlerFunc)) (method path : string)
        (hd : HandlerFunc) :
  Permutation order (range_m (m sr)) ->
  Router_Match (swarmRouter order) method path = Some hd ->
  In method ["GET"; "POST"; "DELETE"; "OPTIONS"]%list.
Proof.
  intros Hp Hm.
  destruct (swarm_match_row order method path hd Hp Hm) as (route & Hin & _).
  now apply (m_methods _ _ _ Hin).
Qed.

End SwarmDispatch.

(** ** Which requests the top-level mux hands to the swarm router *)

Section TopLevelDispatch.

Import Mux Api ServeMux Measure.

Lemma Handler_of_from_entry
      (cleanPath : string -> string) (mx : ServeMux.ServeMux TopHandler)
      (path : string) :
  (exists url code,
      Handler_of RedirectHandler NotFoundHandler cleanPath mx path = RedirectHandler url code) \/
  Handler_of RedirectHandler NotFoundHandler cleanPath mx path = NotFoundHandler \/
  exists kv, In kv mx /\ pathMatch (fst kv) path = true /\
             h (snd kv) = Handler_of RedirectHandler NotFoundHandler cleanPath mx path.
Proof.
  unfold Handler_of, handler, match_.
  destruct (String.eqb (cleanPath path) path); [|left; eauto].
  destruct (fold_left (match_step path) mx None) as [[n hd']|] eqn:F;
    cbn [option_map snd]; [|now right; left].
  right. right.
  destruct (fold_match_from _ _ _ _ _ _ F) as [[n' Hn] | Hkv]; [discriminate | exact Hkv].
Qed.

Lemma handler_from_entry (cleanPath : string -> string) (path : string) (hd : TopHandler) :
  globalMux_Handler cleanPath path = Some hd ->
  (exists url code, hd = RedirectHandler url code) \/ hd = NotFoundHandler \/
  exists kv, In kv globalMux_entries /\ pathMatch (fst kv) path = true /\ h (snd kv) = hd.
Proof.
  unfold globalMux_Handler. rewrite globalMux_registered.
  intros E. injection E as E. rewrite <- E.
  apply Handler_of_from_entry.
Qed.

(** No entry mounted for the swarm router matches a path made of [/v] and
    a version alone. *)
Lemma version_root_not_swarm (ver : string) (kv : string * muxEntry TopHandler) :
  is_version ver = true ->
  In kv globalMux_entries ->
  pathMatch (fst kv) ("/v" ++ ver) = true ->
  h (snd kv) <> swarmAuthRouter.
Proof.
  intros Hv Hin Hm.
  unfold globalMux_entries in Hin. simpl in Hin.
  repeat (destruct Hin as [<- | Hin];
          [ first
              [ discriminate
              | exfalso; cbn [fst] in Hm;
                destruct (pathMatch_inv _ _ Hm) as [[Hs [r E]] | [Hs E]];
                (first
                   [ cbv in Hs; discriminate Hs
                   | simpl in E; first
                       [ discriminate E
                       | inversion E; subst ver; cbn in Hv; discriminate Hv ] ]) ]
          | ]).
  contradiction.
Qed.

(** X11. The OPTIONS row of the table is out of reach.  Its bare route is
    empty, so the swarm router dispatches an OPTIONS request only when the
    path is exactly [/v] and a version; and the top-level mux never hands
    such a path to the swarm router.  An OPTIONS request for any other swarm
    path, such as a preflight for [/containers/json], matches no route. *)
Theorem options_row_unreachable
        (sr : HandlerFunc) (cleanPath : string -> string)
        (order : list (string * string * HandlerFunc)) (path : string) (hd : HandlerFunc) :
  Permutation order (range_m (m sr)) ->
  Router_Match (swarmRouter order) "OPTIONS" path = Some hd ->
  (exists ver, is_version ver = true /\ path = "/v" ++ ver) /\
  globalMux_Handler cleanPath path <> Some swarmAuthRouter.
Proof.
  intros Hp Hm.
  destruct (swarm_match_row sr order "OPTIONS" path hd Hp Hm) as (route & Hin & Hor).
  pose proof (proj2 (m_methods sr _ _ _ Hin) eq_refl) as ->.
  assert (Hver : exists ver, is_version ver = true /\ path = "/v" ++ ver).
  { destruct Hor as [Hv | Hb]; [|discriminate Hb].
    unfold Route_Match in Hv.
    change (Path (version_prefix ++ EmptyString))
      with (Some [Lit "/v"; Var "version" ReDigitDotPlus; Lit EmptyString]%list) in Hv.
    cbn [regexp methods match_segs min_len] in Hv.
    apply andb_prop in Hv as [Hs _].
    destruct (Strings.strip "/v" path) as [p'|] eqn:S; [|discriminate].
    apply strip_inv in S. subst path.
    apply var_match_inv in Hs as (ver & rest & -> & Hv & Hn & Hk).
    cbn [Strings.strip] in Hk.
    apply String.eqb_eq in Hk. subst rest. rewrite append_nil_r.
    exists ver. split; [|reflexivity].
    unfold is_version. rewrite Hv. destruct ver; simpl in *; [lia | reflexivity]. }
  split; [exact Hver|].
  destruct Hver as (ver & Hv & ->).
  intros E.
  destruct (handler_from_entry _ _ _ E) as [(url & code & Hd) | [Hd | (kv & Hin' & Hpm & Hd)]];
    try discriminate Hd.
  now apply (version_root_not_swarm ver kv Hv Hin' Hpm).
Qed.

Lemma bare_match_prefix {H : Type} (route method path : string) (ms : list string) (hd : H)
      (raw : string) (rest : list Seg) :
  Path route = Some (Lit raw :: rest) ->
  Route_Match (mkRoute (Path route) ms hd) method path = true ->
  exists s', path = raw ++ s' /\ match_segs rest s' = true.
Proof.
  intros Hp Hm. unfold Route_Match in Hm. cbn [regexp methods] in Hm.
  rewrite Hp in Hm. apply andb_prop in Hm as [Hs _].
  cbn [match_segs] in Hs.
  destruct (Strings.strip raw path) as [s'|] eqn:S; [|discriminate].
  exists s'. split; [now apply strip_inv | assumption].
Qed.

(** X12. Of the bare routes of the table, the top-level mux hands all to
    the swarm router but two: a clean path that matches the bare [/info]
    route goes to the static file server, and one that matches the bare
    [/auth] route is redirected to [/auth/], the mount of the login router. *)
Theorem bare_routes_at_top_level
        (sr : HandlerFunc) (cleanPath : string -> string)
        (method route : string) (fct : HandlerFunc) (path : string) :
  In (method, route, fct) (range_m (m sr)) ->
  Route_Match (mkRoute (Path route) [method] (wrap fct)) method path = true ->
  cleanPath path = path ->
  globalMux_Handler cleanPath path
  = Some (if String.eqb route "/info" then FileServer "static"
          else if String.eqb route "/auth" then RedirectHandler "/auth/" 301
               else swarmAuthRouter).
Proof.
  intros Hin Hm Hclean.
  unfold globalMux_Handler. rewrite globalMux_registered. cbn [option_map].
  unfold Handler_of. rewrite Hclean, String.eqb_refl. f_equal. clear Hclean.
  unfold range_m, m in Hin. simpl in Hin.
  repeat (destruct Hin as [Hin|Hin];
          [ inversion Hin; subst method route fct; clear Hin;
            first
              [ discriminate Hm
              | eapply bare_match_prefix in Hm; [ | vm_compute; reflexivity ];
                destruct Hm as (s' & -> & Hs');
                cbn [match_segs] in Hs';
                first
                  [ apply String.eqb_eq in Hs'; subst s'; vm_compute; reflexivity
                  | clear Hs'; destruct s'; vm_compute; reflexivity ] ]
          | ]).
  contradiction.
Qed.

(** X13. No mount shadows another: every path under a mounted prefix other
    than [/], and every exactly mounted path, is handed to the handler
    mounted there, when the path is clean.  So every path behind [/v1.17/]
    or [/v1.18/] reaches the swarm router, the paths of [/info] and [/auth]
    included, and every path behind [/auth/] reaches the login router. *)
Theorem mounts_own_their_paths
        (cleanPath : string -> string) (pat : string) (hd : TopHandler) (rest : string) :
  In (pat, hd) mounts ->
  pat <> "/" ->
  ends_with_slash pat = true \/ rest = EmptyString ->
  cleanPath (pat ++ rest) = pat ++ rest ->
  globalMux_Handler cleanPath (pat ++ rest) = Some hd.
Proof.
  intros Hin Hroot Hor Hclean.
  unfold globalMux_Handler. rewrite globalMux_registered. cbn [option_map].
  unfold Handler_of. rewrite Hclean, String.eqb_refl. f_equal. clear Hclean.
  unfold mounts in Hin. simpl in Hin.
  repeat (destruct Hin as [Hin|Hin];
          [ inversion Hin; subst pat hd; clear Hin;
            first
              [ now elim Hroot
              | destruct Hor as [Hs | ->];
                [ first [ cbv in Hs; discriminate Hs
                        | destruct rest; vm_compute; reflexivity ]
                | vm_compute; reflexivity ] ]
          | ]).
  contradiction.
Qed.

(** The top-level mux is what the [Handle] calls on [mounts] build. *)
Lemma globalMux_from_mounts :
  globalMux = fold_left (fun g ph => Handle' g (fst ph) (snd ph)) mounts (Some []%list).
Proof. reflexivity. Qed.

End TopLevelDispatch.

(** ** CORS headers accumulate *)

Section CorsValues.

Import Api.

Lemma Header_Values_app (h1 h2 : Http.Header) (key : string) :
  Http.Header_Values (h1 ++ h2)%list key
  = (Http.Header_Values h1 key ++ Http.Header_Values h2 key)%list.
Proof. unfold Http.Header_Values. now rewrite filter_app, map_app. Qed.

(** X14. [writeCorsHeaders] adds and never replaces: under each of its
    three keys the response has the values it had, followed by the CORS
    value, and every other key keeps its values.  Run on a response that
    already carries the CORS headers it doubles them. *)
Theorem writeCorsHeaders_adds_values
        (r : Http.Request) (st : ServeState) (key : string) :
  Http.Header_Values (Http.header (rw (writeCorsHeaders r st))) key
  = (Http.Header_Values (Http.header (rw st)) key
     ++ if String.eqb key "Access-Control-Allow-Origin" then ["*"]
        else if String.eqb key "Access-Control-Allow-Headers"
             then ["Origin, X-Requested-With, Content-Type, Accept"]
             else if String.eqb key "Access-Control-Allow-Methods"
                  then ["GET, POST, DELETE, PUT, OPTIONS"]
                  else [])%list /\
  Http.Header_Values
    (Http.header (rw (writeCorsHeaders r (writeCorsHeaders r st))))
    "Access-Control-Allow-Origin"
  = (Http.Header_Values (Http.header (rw st)) "Access-Control-Allow-Origin"
     ++ ["*"; "*"])%list /\
  Http.status (rw (writeCorsHeaders r st)) = Http.status (rw st) /\
  Http.body (rw (writeCorsHeaders r st)) = Http.body (rw st).
Proof.
  assert (Hh : forall s, Http.header (rw (writeCorsHeaders r s))
                         = (Http.header (rw s)
                            ++ [ ("Access-Control-Allow-Origin", "*");
                                 ("Access-Control-Allow-Headers",
                                  "Origin, X-Requested-With, Content-Type, Accept");
                                 ("Access-Control-Allow-Methods",
                                  "GET, POST, DELETE, PUT, OPTIONS") ])%list).
  { intros s. unfold writeCorsHeaders, with_rw, add_header, Http.Header_Add. simpl.
    now rewrite <- !app_assoc. }
  split; [|split; [|split; reflexivity]].
  - rewrite Hh, Header_Values_app. f_equal.
    unfold Http.Header_Values. cbn [filter fst snd map].
    rewrite (String.eqb_sym "Access-Control-Allow-Origin" key),
            (String.eqb_sym "Access-Control-Allow-Headers" key),
            (String.eqb_sym "Access-Control-Allow-Methods" key).
    destruct (String.eqb_spec key "Access-Control-Allow-Origin") as [->|]; [reflexivity|].
    destruct (String.eqb_spec key "Access-Control-Allow-Headers") as [->|]; [reflexivity|].
    destruct (String.eqb_spec key "Access-Control-Allow-Methods") as [->|]; reflexivity.
  - rewrite !Hh, !Header_Values_app, <- app_assoc. reflexivity.
Qed.

End CorsValues.

(** ** Instances of the further properties *)

Section MoreInstances.

Import Mux Api Bridge Measure Handlers.


Lemma hijack_error_only_from_setup_witness :
  snd (hijack refusing_env (demo_api None) "swarm:2375" "POST" "/exec/e1/start" true
              (Some demo_ws) (Some demo_ws) (Some demo_ws) None demo_sched)
  = Some (Some "connection refused") /\
  fst (hijack refusing_env (demo_api None) "swarm:2375" "POST" "/exec/e1/start" true
              (Some demo_ws) (Some demo_ws) (Some demo_ws) None demo_sched)
  = [EvDial None "tcp" "swarm:2375"]%list.
Proof.
  split; [reflexivity|].
  destruct (hijack_error_only_from_setup
              refusing_env (demo_api None) "swarm:2375" "POST" "/exec/e1/start" true
              (Some demo_ws) (Some demo_ws) (Some demo_ws) None demo_sched
              "connection refused" eq_refl) as [[Hn _] | (_ & _ & Ht)].
  - discriminate Hn.
  - exact Ht.
Defined.


Lemma execContainer_returns_only_on_error_witness :
  snd (execContainer refusing_env (demo_api None) demo_ws demo_sched) = Returned /\
  count_ev is_post (fst (execContainer refusing_env (demo_api None) demo_ws demo_sched))
  = 1%nat /\
  ~ In EvHijack (fst (execContainer refusing_env (demo_api None) demo_ws demo_sched)).
Proof.
  split; [reflexivity|].
  destruct (execContainer_returns_only_on_error
              refusing_env (demo_api None) demo_ws demo_sched eq_refl) as (H1 & H2 & _).
  split; [exact H1 | exact H2].
Defined.

Lemma hubWebhook_accepts_iff_substring_witness :
  hubWebhook demo_hooks Http.emptyRW demo_hook_request = Some Http.emptyRW /\
  exists a b, "evil/shipyard/shipyard2" = a ++ "shipyard/shipyard" ++ b.
Proof.
  destruct (hubWebhook_accepts_iff_substring
              demo_hooks Http.emptyRW demo_hook_request
              (mkWebhookKey "shipyard/shipyard" "k1") "evil/shipyard/shipyard2"
              eq_refl eq_refl) as [H | [H _]].
  - exact H.
  - discriminate H.
Defined.

Lemma versioned_route_inversion_witness :
  exists ver rest,
    "/v1.19/info" = "/v" ++ ver ++ rest /\ is_version ver = true /\
    Route_Match (mkRoute (Path "/info") ["GET"]%list tt) "GET" rest = true.
Proof.
  apply (versioned_route_inversion "GET" "GET" "/info" "/v1.19/info" tt).
  - discriminate.
  - reflexivity.
Defined.

Lemma swarm_dispatch_order_independent_witness :
  Router_Match (swarmRouter (rev (range_m (m demo_handler)))) "GET" "/v1.18/images/a/b/json"
  = Router_Match (swarmRouter (range_m (m demo_handler))) "GET" "/v1.18/images/a/b/json" /\
  Router_Match (swarmRouter (rev (range_m (m demo_handler)))) "GET" "/v1.18/images/a/b/json"
  = Some (wrap demo_handler).
Proof.
  apply (swarm_dispatch_order_independent
           demo_handler (rev (range_m (m demo_handler))) (range_m (m demo_handler))
           "GET" "/v1.18/images/a/b/json").
  - apply Permutation_sym, Permutation_rev.
  - apply Permutation_refl.
Defined.

Lemma swarm_dispatch_methods_witness :
  Router_Match (swarmRouter (range_m (m demo_handler))) "GET" "/info"
  = Some (wrap demo_handler) /\
  In "GET" ["GET"; "POST"; "DELETE"; "OPTIONS"]%list.
Proof.
  split; [reflexivity|].
  apply (swarm_dispatch_methods demo_handler (range_m (m demo_handler)) "GET" "/info"
                                (wrap demo_handler)).
  - apply Permutation_refl.
  - reflexivity.
Defined.

Lemma options_row_unreachable_witness :
  Router_Match (swarmRouter (range_m (m demo_handler))) "OPTIONS" "/v1.17"
  = Some (wrap demo_handler) /\
  (exists ver, is_version ver = true /\ "/v1.17" = "/v" ++ ver) /\
  globalMux_Handler (fun p => p) "/v1.17" <> Some swarmAuthRouter.
Proof.
  split; [reflexivity|].
  apply (options_row_unreachable demo_handler (fun p => p) (range_m (m demo_handler))
                                 "/v1.17" (wrap demo_handler)).
  - apply Permutation_refl.
  - reflexivity.
Defined.

Lemma bare_routes_at_top_level_witness :
  globalMux_Handler (fun p => p) "/info" = Some (FileServer "static").
Proof.
  apply (bare_routes_at_top_level demo_handler (fun p => p) "GET" "/info" demo_handler "/info").
  - simpl. do 2 right. left. reflexivity.
  - reflexivity.
  - reflexivity.
Defined.

Lemma mounts_own_their_paths_witness :
  globalMux_Handler (fun p => p) "/v1.17/info" = Some swarmAuthRouter.
Proof.
  apply (mounts_own_their_paths (fun p => p) "/v1.17/" swarmAuthRouter "info").
  - simpl. do 13 right. left. reflexivity.
  - discriminate.
  - left. reflexivity.
  - reflexivity.
Defined.

Lemma catch_all_accepts_slashes_witness :
  Route_Match (mkRoute (Path "/images/{name:.*}/json") ["GET"]%list tt)
              "GET" "/images/library/ubuntu/json" = true.
Proof.
  apply (proj2 (catch_all_accepts_slashes
                  "/images/{name:.*}/json" "/images/" "name" "/json" "GET"
                  "/images/library/ubuntu/json" tt eq_refl)).
  exists "library/ubuntu". split; reflexivity.
Defined.

End MoreInstances.
